(** * quantum-signal-demo: the gated signal-enhancement pipeline of signal-demo.py

    A shallow embedding of [signal-demo.py].  The script is Streamlit code:
    it reads widgets, keeps a flag in [st.session_state], draws on the page,
    works on pandas frames that are objects on the Python heap (some copied,
    some updated in place), draws Gaussian noise from numpy's global
    generator and reads the wall clock.  All of that is threaded through one
    state-and-exception monad [M].

    What the script imports and does not define stays a parameter of the
    development: [scipy.signal.butter], [scipy.signal.filtfilt], [np.std],
    one draw of [np.random.normal], [pd.read_csv] and [DataFrame.to_csv].
    Python floats are IEEE binary64 numbers, here [PrimFloat.float]. *)

From Stdlib Require Import ZArith String Ascii Floats DecimalString.
From stdpp Require Import base option list strings.

Local Set Warnings "-inexact-float".

(** ** Constants of the script (lines 10-13) *)

Definition DEMO_MODE : bool := true.
Definition MAX_FILE_SIZE : Z := 2 * 1024 * 1024.
Definition MAX_ROWS : nat := 500.

(** ** Strings *)

(** [str.lower()].  Only ASCII capitals are mapped; bytes of a multi-byte
    UTF-8 sequence are left alone.  The script only ever compares the result
    with ["time"], and no non-ASCII character lowers to one of t, i, m, e, so
    for that comparison this agrees with Python's Unicode-aware method. *)
Definition lower_ascii (c : ascii) : ascii :=
  let n := nat_of_ascii c in
  if (65 <=? n) && (n <=? 90) then ascii_of_nat (n + 32) else c.

Fixpoint lower (s : string) : string :=
  match s with
  | EmptyString => EmptyString
  | String c s' => String (lower_ascii c) (lower s')
  end.

(** [str(n)] for a non-negative integer. *)
Definition str_of_nat (n : nat) : string :=
  NilEmpty.string_of_uint (Nat.to_uint n).

(** ** Data frames *)

(** A cell is a number or a piece of text (an object column as [read_csv]
    produces it for non-numeric fields). *)
Inductive cell : Type :=
  | CNum (x : float)
  | CStr (s : string).

Definition column := list cell.

(** A frame: the length of its (range) index and its labelled columns, in
    order.  [df.columns] is [df_columns], [len(df)] is [index_len]. *)
Record DataFrame : Type := mkDataFrame {
  index_len : nat;
  data : list (string * column)
}.

Definition df_columns (df : DataFrame) : list string := (data df).*1.

(** What pandas guarantees of a frame read by [read_csv]: labels are unique
    (duplicates in the header are renamed) and every column has one value
    per index entry. *)
Definition wf_frame (df : DataFrame) : Prop :=
  NoDup (df_columns df) /\
  Forall (fun nc => length nc.2 = index_len df) (data df).

#[global] Instance wf_frame_dec df : Decision (wf_frame df).
Proof. unfold wf_frame. apply _. Defined.

Fixpoint assoc_col (col : string) (d : list (string * column)) : option column :=
  match d with
  | [] => None
  | (n, c) :: d' => if String.eqb n col then Some c else assoc_col col d'
  end.

(** [df[col].values]; [None] is pandas' [KeyError].  On a frame with unique
    labels this is the one column of that name. *)
Definition getitem (df : DataFrame) (col : string) : option column :=
  assoc_col col (data df).

Definition replace_col (col : string) (v : column) (nc : string * column)
  : string * column :=
  if String.eqb nc.1 col then (nc.1, v) else nc.

Definition put_col (col : string) (v : column) (d : list (string * column))
  : list (string * column) :=
  if bool_decide (col ∈ d.*1) then replace_col col v <$> d else d ++ [(col, v)].

(** [df[col] = values] for a one-dimensional array.  pandas refuses an
    array whose length differs from the index ([None], a [ValueError]),
    except on a frame whose index is empty: there a non-empty array gives
    the frame a fresh range index of its length and the columns already
    present are re-indexed, that is, filled with NaN. *)
Definition setitem (df : DataFrame) (col : string) (v : column)
  : option DataFrame :=
  if (index_len df =? 0) && (0 <? length v) then
    Some (mkDataFrame (length v)
            (put_col col v
               ((fun nc => (nc.1, replicate (length v) (CNum nan))) <$> data df)))
  else if length v =? index_len df then
    Some (mkDataFrame (index_len df) (put_col col v (data df)))
  else None.

(** [df[col] = series] for a column taken from a frame with a range index:
    pandas aligns the series on the index of [df], so entries beyond the
    series are NaN and entries beyond the index are dropped; it never
    raises. *)
Definition align (n : nat) (v : column) : column :=
  take n v ++ replicate (n - length v) (CNum nan).

Definition setitem_series (df : DataFrame) (col : string) (v : column)
  : DataFrame :=
  mkDataFrame (index_len df) (put_col col (align (index_len df) v) (data df)).

(** [df.head(n)]. *)
Definition head (n : nat) (df : DataFrame) : DataFrame :=
  mkDataFrame (n `min` index_len df) ((fun nc => (nc.1, take n nc.2)) <$> data df).

(** [df.insert(loc=0, column, value)] with a scalar [value]; pandas raises
    [ValueError] ([None]) when the label is already there. *)
Definition insert0 (df : DataFrame) (col : string) (value : cell)
  : option DataFrame :=
  if bool_decide (col ∈ df_columns df) then None
  else Some (mkDataFrame (index_len df)
               ((col, replicate (index_len df) value) :: data df)).

(** ** The clock *)

Record datetime : Type := mkDatetime {
  year : nat; month : nat; day : nat;
  hour : nat; minute : nat; second : nat
}.

Definition pad2 (n : nat) : string :=
  if n <? 10 then "0" +:+ str_of_nat n else str_of_nat n.

(** [strftime] for the two formats the script uses.  [%Y] is the year in
    decimal, four digits for every year the clock of a running system
    shows. *)
Definition strftime_seconds (t : datetime) : string :=
  str_of_nat (year t) +:+ "-" +:+ pad2 (month t) +:+ "-" +:+ pad2 (day t)
  +:+ " " +:+ pad2 (hour t) +:+ ":" +:+ pad2 (minute t) +:+ ":" +:+ pad2 (second t).

Definition strftime_date (t : datetime) : string :=
  str_of_nat (year t) +:+ pad2 (month t) +:+ pad2 (day t).

(** [WATERMARK_TEXT.format(timestamp)] (line 13). *)
Definition WATERMARK_TEXT (timestamp : string) : string :=
  "QuantumSignal Demo | Not for Production | " +:+ timestamp.

(** ** What a run of the script sees and does *)

(** Exceptions.  Everything the libraries raise derives from [Exception];
    Streamlit's [st.stop()] and [st.rerun()] raise control exceptions that
    derive from [BaseException], so [except Exception] lets them through. *)
Inductive exn : Type :=
  | PyException (msg : string)
  | StopException
  | RerunException.

Inductive result (A : Type) : Type :=
  | Ok (a : A)
  | Raise (e : exn).
Arguments Ok {A} a.
Arguments Raise {A} e.

(** What the script puts on the page in reaction to its input.  The calls
    that lay out the page whatever the input is (titles, the mode banner,
    metrics, captions, the feature list) are left out. *)
Inductive event : Type :=
  | st_error (msg : string)
  | st_warning (msg : string)
  | st_success (msg : string)
  | st_info (msg : string)
  | st_dataframe (df : DataFrame)
  | st_download_button (data file_name mime : string).

Record UploadedFile : Type := mkUploadedFile {
  size : Z;
  content : string
}.

(** The values the widgets return in one run of the script. *)
Record widgets : Type := mkWidgets {
  access_code : string;        (* st.text_input("Enter access code:") *)
  access_clicked : bool;       (* st.button("Access Demo") *)
  uploaded_file : option UploadedFile;
  boost : float;
  lowcut : float;
  highcut : float;
  process_clicked : bool       (* st.button("Process in Demo Mode") *)
}.

(** References to frames are addresses into the heap. *)
Definition ref := nat.

(** ** Stand-ins for the libraries

    Small executable versions of the library functions, and sample data, on
    which the script can be run inside Rocq.  They share with the real
    functions what the script relies on and are otherwise simple: the
    filter refuses text cells, inputs no longer than its padding (27
    samples for a band-pass of order 4) and band edges outside
    [0 < low < high < 1], and returns one sample per input sample. *)
Module Fixture.

(** The generator: a tape of standard normal draws still to come. *)
Definition rng := list float.

Definition gauss (loc scale : float) (g : rng) : float * rng :=
  ((loc + scale * List.hd 0%float g)%float, List.tl g).

Definition coeffs := (float * float)%type.

Definition butter (N : nat) (low high : float) : string + coeffs :=
  if ((0 <? low) && (low <? high) && (high <? 1))%float
  then inr (low, high)
  else inl "Digital filter critical frequencies must be 0 < Wn < 1".

Fixpoint numbers (x : column) : option (list float) :=
  match x with
  | [] => Some []
  | CNum v :: x' => cons v <$> numbers x'
  | CStr _ :: _ => None
  end.

Definition filtfilt (ba : coeffs) (x : column) : string + list float :=
  match numbers x with
  | None => inl "unsupported operand type(s) for -: 'str' and 'str'"
  | Some xs =>
      if length xs <=? 27
      then inl "The length of the input vector x must be greater than padlen, which is 27."
      else inr ((fun v => (v * (ba.2 - ba.1))%float) <$> xs)
  end.

Definition float_of_nat (n : nat) : float :=
  PrimFloat.of_uint63 (Uint63.of_Z (Z.of_nat n)).

Definition fsum (xs : list float) : float := fold_left PrimFloat.add xs 0%float.

Definition np_std (xs : list float) : float :=
  let n := float_of_nat (length xs) in
  let m := (fsum xs / n)%float in
  PrimFloat.sqrt (fsum ((fun x => ((x - m) * (x - m))%float) <$> xs) / n).

(** A frame of [n] rows: a time axis, two numeric channels and a column
    of text. *)
Definition recording (n : nat) : DataFrame :=
  mkDataFrame n
    [ ("Time", (fun i => CNum (float_of_nat i)) <$> seq 0 n);
      ("ch1", (fun i => CNum (float_of_nat (i * i `mod` 7))) <$> seq 0 n);
      ("note", replicate n (CStr "n/a"));
      ("ch2", (fun i => CNum (float_of_nat (i `mod` 3))) <$> seq 0 n) ].

(** A recording that went through the demo once already. *)
Definition stamped (n : nat) : DataFrame :=
  mkDataFrame n
    (("DEMO_WATERMARK", replicate n (CStr "QuantumSignal Demo | Not for Production | 2025-01-01 00:00:00"))
       :: data (recording n)).

Definition read_csv (text : string) : string + DataFrame :=
  if String.eqb text "recording-30" then inr (recording 30)
  else if String.eqb text "recording-501" then inr (recording 501)
  else if String.eqb text "stamped-30" then inr (stamped 30)
  else inl "No columns to parse from file".

Definition to_csv (df : DataFrame) : string :=
  String.concat "," (df_columns df).

Definition tape : rng :=
  [0.5; -1.25; 0.125; 2; -0.75; 0.25; -0.5; 1.5]%float.

Definition at_noon : nat -> datetime :=
  fun i => mkDatetime 2025 3 7 12 0 i.

End Fixture.

Declare Scope script_scope.
Delimit Scope script_scope with script.

Section Script.

(** ** Library functions the script calls *)

(** The state of numpy's global generator, and one draw from the normal
    distribution with mean [loc] and standard deviation [scale]. *)
Variable rng : Type.
Variable gauss : float -> float -> rng -> float * rng.

(** [scipy.signal.butter(N, [low, high], btype="band")]: the coefficient
    pair [(b, a)], or the message of the [ValueError] it raises. *)
Variable coeffs : Type.
Variable butter : nat -> float -> float -> string + coeffs.

(** [scipy.signal.filtfilt(b, a, x)], the forward-backward application of
    the filter: the filtered samples, or the message of the exception it
    raises (input too short for the padding, cells that are not numbers). *)
Variable filtfilt : coeffs -> column -> string + list float.

(** [np.std]. *)
Variable np_std : list float -> float.

(** [pd.read_csv] on the content of the upload, and [df.to_csv(index=False)]. *)
Variable read_csv : string -> string + DataFrame.
Variable to_csv : DataFrame -> string.

(** ** The state of a run *)

Record world : Type := mkWorld {
  authenticated : option bool;   (* st.session_state: the key may be absent *)
  np_random : rng;
  clock : nat -> datetime;       (* what the coming calls of datetime.now() return *)
  page : list event;             (* oldest first *)
  heap : list DataFrame
}.

Definition M (A : Type) : Type := world -> result A * world.

Definition ret {A} (a : A) : M A := fun w => (Ok a, w).

Definition bind {A B} (m : M A) (k : A -> M B) : M B :=
  fun w =>
    match m w with
    | (Ok a, w') => k a w'
    | (Raise e, w') => (Raise e, w')
    end.

Definition raise {A} (e : exn) : M A := fun w => (Raise e, w).

(** [try: body / except Exception as e: handler(str(e))]. *)
Definition try_except {A} (body : M A) (handler : string -> M A) : M A :=
  fun w =>
    match body w with
    | (Raise (PyException msg), w') => handler msg w'
    | other => other
    end.

Notation "x <- m ;; k" := (bind m (fun x => k))
  (at level 100, m at next level, k at level 200, right associativity)
  : script_scope.
Notation "m ;; k" := (bind m (fun _ => k))
  (at level 100, k at level 200, right associativity) : script_scope.
Local Open Scope script_scope.

Fixpoint for_each {A} (xs : list A) (body : A -> M unit) : M unit :=
  match xs with
  | [] => ret tt
  | x :: xs' => body x ;; for_each xs' body
  end.

Definition lift {A} (r : string + A) : M A :=
  match r with
  | inl msg => raise (PyException msg)
  | inr a => ret a
  end.

(** *** Streamlit *)

Definition emit (e : event) : M unit :=
  fun w => (Ok tt, mkWorld (authenticated w) (np_random w) (clock w)
                           (page w ++ [e]) (heap w)).

Definition session_get : M (option bool) := fun w => (Ok (authenticated w), w).

Definition session_set (b : bool) : M unit :=
  fun w => (Ok tt, mkWorld (Some b) (np_random w) (clock w) (page w) (heap w)).

(** *** numpy and the clock *)

Fixpoint normal (loc scale : float) (n : nat) (g : rng) : list float * rng :=
  match n with
  | 0 => ([], g)
  | S n' =>
      let (x, g1) := gauss loc scale g in
      let (xs, g2) := normal loc scale n' g1 in
      (x :: xs, g2)
  end.

(** [np.random.normal(loc, scale, n)]: [n] draws, one after the other.
    numpy refuses a negative [scale]; the only scale the script passes is
    0.03 times a standard deviation, which is never negative, so that
    check is not modelled. *)
Definition np_random_normal (loc scale : float) (n : nat) : M (list float) :=
  fun w =>
    let (xs, g) := normal loc scale n (np_random w) in
    (Ok xs, mkWorld (authenticated w) g (clock w) (page w) (heap w)).

Definition datetime_now : M datetime :=
  fun w => (Ok (clock w 0),
            mkWorld (authenticated w) (np_random w) (fun i => clock w (S i))
                    (page w) (heap w)).

(** *** pandas objects on the heap *)

Definition new_frame (df : DataFrame) : M ref :=
  fun w => (Ok (length (heap w)),
            mkWorld (authenticated w) (np_random w) (clock w) (page w)
                    (heap w ++ [df])).

Definition load (l : ref) : M DataFrame :=
  fun w =>
    match heap w !! l with
    | Some df => (Ok df, w)
    | None => (Raise (PyException "dangling reference"), w)
    end.

Definition store (l : ref) (df : DataFrame) : M unit :=
  fun w => (Ok tt, mkWorld (authenticated w) (np_random w) (clock w) (page w)
                           (<[l := df]> (heap w))).

Definition df_copy (l : ref) : M ref := df <- load l ;; new_frame df.

Definition df_head (l : ref) (n : nat) : M ref :=
  df <- load l ;; new_frame (head n df).

Definition df_len (l : ref) : M nat := df <- load l ;; ret (index_len df).

Definition df_get_columns (l : ref) : M (list string) :=
  df <- load l ;; ret (df_columns df).

Definition df_getitem (l : ref) (col : string) : M column :=
  df <- load l ;;
  match getitem df col with
  | Some v => ret v
  | None => raise (PyException ("'" +:+ col +:+ "'"))
  end.

Definition df_setitem (l : ref) (col : string) (v : column) : M unit :=
  df <- load l ;;
  match setitem df col v with
  | Some df' => store l df'
  | None =>
      raise (PyException ("Length of values (" +:+ str_of_nat (length v)
                          +:+ ") does not match length of index ("
                          +:+ str_of_nat (index_len df) +:+ ")"))
  end.

Definition df_setitem_series (l : ref) (col : string) (v : column) : M unit :=
  df <- load l ;; store l (setitem_series df col v).

Definition df_insert0 (l : ref) (col : string) (value : cell) : M unit :=
  df <- load l ;;
  match insert0 df col value with
  | Some df' => store l df'
  | None => raise (PyException ("cannot insert " +:+ col +:+ ", already exists"))
  end.

(** ** The script *)

(** *** Authentication (lines 16-44) *)

Definition check_auth (ui : widgets) : M bool :=
  a <- session_get ;;
  (if a is None then session_set false else ret tt) ;;
  a <- session_get ;;
  if negb (default false a) then
    (if access_clicked ui then
       if String.eqb (access_code ui) "Demo2025" then
         session_set true ;; raise RerunException
       else emit (st_error "Invalid access code")
     else ret tt) ;;
    raise StopException
  else ret true.

(** *** Basic processing (lines 47-83) *)

Definition basic_bandpass_filter (signal : column) (lowcut highcut fs : float)
  : string + list float :=
  let nyquist := (0.5 * fs)%float in
  let low := (lowcut / nyquist)%float in
  let high := (highcut / nyquist)%float in
  match butter 4 low high with
  | inl msg => inl msg
  | inr ba => filtfilt ba signal
  end.

(** The body of the [try] (lines 65-77). *)
Definition enhance_try (df df_enhanced : ref) (col : string)
    (boost_factor lowcut highcut : float) : M unit :=
  signal <- df_getitem df col ;;
  let signal := if MAX_ROWS <? length signal then take MAX_ROWS signal else signal in
  filtered <- lift (basic_bandpass_filter signal lowcut highcut 256) ;;
  let boosted := (fun x => (x * boost_factor)%float) <$> filtered in
  demo_noise <- np_random_normal 0 (0.03 * np_std boosted) (length boosted) ;;
  df_setitem df_enhanced col (CNum <$> zip_with PrimFloat.add boosted demo_noise).

(** The body of the [except] (lines 80-81). *)
Definition enhance_except (df df_enhanced : ref) (col : string) : M unit :=
  emit (st_error ("Demo processing error for " +:+ col)) ;;
  orig <- df_getitem df col ;;
  df_setitem_series df_enhanced col orig.

Definition is_signal_col (col : string) : Prop := lower col ≠ "time".

Definition demo_enhance_signals (df : ref) (boost_factor lowcut highcut : float)
  : M ref :=
  df_enhanced <- df_copy df ;;
  columns <- df_get_columns df ;;
  let signal_cols := filter is_signal_col columns in
  for_each signal_cols (fun col =>
    try_except (enhance_try df df_enhanced col boost_factor lowcut highcut)
               (fun _ => enhance_except df df_enhanced col)) ;;
  ret df_enhanced.

(** *** Watermarking (lines 86-93) *)

Definition add_watermark (df : ref) : M (ref * string) :=
  now <- datetime_now ;;
  let timestamp := strftime_seconds now in
  let watermark := WATERMARK_TEXT timestamp in
  df_insert0 df "DEMO_WATERMARK" (CStr watermark) ;;
  ret (df, watermark).

(** *** The application (lines 96-192) *)

(** The row limit (lines 126-128). *)
Definition limit_rows (df : ref) : M ref :=
  n <- df_len df ;;
  if MAX_ROWS <? n then
    df' <- df_head df MAX_ROWS ;;
    emit (st_warning ("Demo limited to first " +:+ str_of_nat MAX_ROWS +:+ " rows")) ;;
    ret df'
  else ret df.

(** What the button "Process in Demo Mode" runs (lines 141-171). *)
Definition process_demo (ui : widgets) (df : ref) : M unit :=
  enhanced_df <- demo_enhance_signals df (boost ui) (lowcut ui) (highcut ui) ;;
  r <- add_watermark enhanced_df ;;
  let '(enhanced_df, watermark) := r in
  emit (st_success "Demo processing complete!") ;;
  emit (st_info ("**Watermark:** " +:+ watermark)) ;;
  h <- df_head df 5 ;;
  shown <- load h ;;
  emit (st_dataframe shown) ;;
  h <- df_head enhanced_df 5 ;;
  shown <- load h ;;
  emit (st_dataframe shown) ;;
  enhanced <- load enhanced_df ;;
  let csv := to_csv enhanced in
  now <- datetime_now ;;
  emit (st_download_button csv
          ("demo_signal_enhancement_" +:+ strftime_date now +:+ ".csv")
          "text/csv").

Definition main (ui : widgets) : M unit :=
  ok <- check_auth ui ;;
  if negb ok then ret tt
  else
    match uploaded_file ui with
    | Some f =>
        if (MAX_FILE_SIZE <? size f)%Z then
          emit (st_error "File too large for demo. Max: 2.0MB")
        else
          try_except
            (parsed <- lift (read_csv (content f)) ;;
             df <- new_frame parsed ;;
             df <- limit_rows df ;;
             if process_clicked ui then process_demo ui df else ret tt)
            (fun msg => emit (st_error ("Demo error: " +:+ msg)))
    | None => ret tt
    end.

(** ** Vocabulary of the statements *)

(** The values line 77 assigns when the filter returned [filtered] and the
    generator is in state [g]. *)
Definition enhanced (boost_factor : float) (filtered : list float) (g : rng)
  : column :=
  let boosted := (fun x => (x * boost_factor)%float) <$> filtered in
  CNum <$> zip_with PrimFloat.add boosted
             (normal 0 (0.03 * np_std boosted) (length boosted) g).1.

(** The generator after the draws for [filtered]. *)
Definition drawn (boost_factor : float) (filtered : list float) (g : rng) : rng :=
  let boosted := (fun x => (x * boost_factor)%float) <$> filtered in
  (normal 0 (0.03 * np_std boosted) (length boosted) g).2.

Definition with_rng (w : world) (g : rng) : world :=
  mkWorld (authenticated w) g (clock w) (page w) (heap w).

(** A column takes the [except] branch when the frame has more rows than
    [MAX_ROWS] (the shortened result does not fit the frame) or when the
    filter raises. *)
Definition column_fails (lo hi : float) (v : column) : Prop :=
  MAX_ROWS < length v \/ exists msg, basic_bandpass_filter v lo hi 256 = inl msg.

Definition column_outcome (bf lo hi : float) (col : string) (v : column)
    (out : DataFrame) (pg : list event) : Prop :=
  (column_fails lo hi v /\ getitem out col = Some v /\
   st_error ("Demo processing error for " +:+ col) ∈ pg)
  \/
  (length v <= MAX_ROWS /\
   exists y g, basic_bandpass_filter v lo hi 256 = inr y /\
               getitem out col = Some (enhanced bf y g)).

Definition same_shape (f g : DataFrame) : Prop :=
  index_len g = index_len f /\ df_columns g = df_columns f /\
  Forall (fun nc : string * column => length nc.2 = index_len g) (data g).

(** One turn of the loop: the [try] with its handler. *)
Definition enhance_body (df e : ref) (bf lo hi : float) (col : string) : M unit :=
  try_except (enhance_try df e col bf lo hi) (fun _ => enhance_except df e col).

(** The frame with the watermark column in front. *)
Definition stamped_with (marker : string) (f : DataFrame) : DataFrame :=
  mkDataFrame (index_len f)
    (("DEMO_WATERMARK", replicate (index_len f) (CStr marker)) :: data f).

Definition tick (w : world) : world :=
  mkWorld (authenticated w) (np_random w) (fun i => clock w (S i)) (page w) (heap w).

(** What scipy documents of [filtfilt]: the output has the shape of the
    input. *)
Hypothesis filtfilt_length :
  forall ba x y, filtfilt ba x = inr y -> length y = length x.


(** ** Vocabulary of the further properties *)

(** The part of a column the [try] body works on (lines 68-69). *)
Definition window (v : column) : column :=
  if MAX_ROWS <? length v then take MAX_ROWS v else v.

(** The values of a column that is there. *)
Definition column_of (f : DataFrame) (col : string) : column :=
  default [] (getitem f col).

Local Instance column_fails_dec lo hi v : Decision (column_fails lo hi v).
Proof.
  unfold column_fails.
  destruct (decide (MAX_ROWS < length v)) as [Hlong|Hshort]; [left; by left|].
  destruct (basic_bandpass_filter v lo hi 256) as [msg|y] eqn:E.
  - left. right. by exists msg.
  - right. intros [Hlong|[msg Hmsg]]; [done | congruence].
Defined.

(** What line 80 puts on the page for a column. *)
Definition error_for (col : string) : event :=
  st_error ("Demo processing error for " +:+ col).

(** The columns of [cols] that take the [except] branch, in order. *)
Definition failing_columns (lo hi : float) (f : DataFrame) (cols : list string)
  : list string :=
  filter (fun c => column_fails lo hi (column_of f c)) cols.

(** The generator after the loop went over [cols]: a column draws its
    noise when the filter returns on its window, also when the result is
    then refused by the frame. *)
Fixpoint draws_after (bf lo hi : float) (f : DataFrame) (cols : list string)
    (g : rng) : rng :=
  match cols with
  | [] => g
  | c :: cols' =>
      match basic_bandpass_filter (window (column_of f c)) lo hi 256 with
      | inl _ => draws_after bf lo hi f cols' g
      | inr y => draws_after bf lo hi f cols' (drawn bf y g)
      end
  end.

(** A computation is contained when it leaves the session flag alone and
    raises nothing but exceptions that derive from [Exception]. *)
Definition contained {A} (m : M A) : Prop :=
  forall w r w',
    m w = (r, w') ->
    authenticated w' = authenticated w /\
    forall e, r = Raise e -> exists msg, e = PyException msg.

(** The frame the application works on once the row limit is applied. *)
Definition limited (f : DataFrame) : DataFrame :=
  if MAX_ROWS <? index_len f then head MAX_ROWS f else f.

(** * Properties *)

(** ** Frames *)

Lemma assoc_col_names col d v : assoc_col col d = Some v -> col ∈ d.*1.
Proof.
  induction d as [|[n c] d IH]; simpl; [done|].
  destruct (String.eqb_spec n col) as [->|Hne]; intros H.
  - apply list_elem_of_here.
  - apply list_elem_of_further. auto.
Qed.

Lemma assoc_col_elem col d v : assoc_col col d = Some v -> (col, v) ∈ d.
Proof.
  induction d as [|[n c] d IH]; simpl; [done|].
  destruct (String.eqb_spec n col) as [->|Hne]; intros H.
  - injection H as ->. apply list_elem_of_here.
  - apply list_elem_of_further. auto.
Qed.

Lemma assoc_col_is_Some col d : col ∈ d.*1 -> is_Some (assoc_col col d).
Proof.
  induction d as [|[n c] d IH]; simpl.
  - intros H. by apply elem_of_nil in H.
  - intros [->|H]%elem_of_cons.
    + rewrite String.eqb_refl. eauto.
    + destruct (String.eqb n col); eauto.
Qed.

Lemma assoc_col_None col d : col ∉ d.*1 -> assoc_col col d = None.
Proof.
  intros H. destruct (assoc_col col d) eqn:E; [|done].
  by apply assoc_col_names in E.
Qed.

Lemma assoc_col_cons_ne col n c d :
  n ≠ col -> assoc_col col ((n, c) :: d) = assoc_col col d.
Proof. intros Hne. simpl. by destruct (String.eqb_spec n col). Qed.

Lemma assoc_col_snoc_eq col v d :
  col ∉ d.*1 -> assoc_col col (d ++ [(col, v)]) = Some v.
Proof.
  induction d as [|[n c] d IH]; simpl.
  - by rewrite String.eqb_refl.
  - intros [Hne H]%not_elem_of_cons.
    destruct (String.eqb_spec n col); [congruence | auto].
Qed.

Lemma assoc_col_snoc_ne c col v d :
  c ≠ col -> assoc_col c (d ++ [(col, v)]) = assoc_col c d.
Proof.
  intros Hne. induction d as [|[n x] d IH]; simpl.
  - destruct (String.eqb_spec col c); congruence.
  - by rewrite IH.
Qed.

Lemma replace_col_names col v d : (replace_col col v <$> d).*1 = d.*1.
Proof.
  induction d as [|[n c] d IH]; [done|].
  rewrite !fmap_cons, IH. f_equal.
  unfold replace_col. simpl. by destruct (String.eqb n col).
Qed.

Lemma assoc_replace_col_eq col v d :
  col ∈ d.*1 -> assoc_col col (replace_col col v <$> d) = Some v.
Proof.
  induction d as [|[n c] d IH].
  - intros H. by apply elem_of_nil in H.
  - rewrite !fmap_cons. unfold replace_col at 1. simpl.
    destruct (String.eqb_spec n col) as [->|Hne]; simpl.
    + intros _. by rewrite String.eqb_refl.
    + intros [E|H]%elem_of_cons; [congruence|].
      destruct (String.eqb_spec n col); [congruence | auto].
Qed.

Lemma assoc_replace_col_ne c col v d :
  c ≠ col -> assoc_col c (replace_col col v <$> d) = assoc_col c d.
Proof.
  intros Hne. induction d as [|[n x] d IH]; [done|].
  rewrite fmap_cons. unfold replace_col at 1. simpl.
  destruct (String.eqb_spec n col) as [->|Hn]; simpl.
  - destruct (String.eqb_spec col c); [congruence | auto].
  - by rewrite IH.
Qed.

Lemma put_col_names col v d : col ∈ d.*1 -> (put_col col v d).*1 = d.*1.
Proof.
  intros H. unfold put_col. rewrite bool_decide_eq_true_2 by done.
  apply replace_col_names.
Qed.

Lemma assoc_put_col_eq col v d : assoc_col col (put_col col v d) = Some v.
Proof.
  unfold put_col. case_bool_decide.
  - by apply assoc_replace_col_eq.
  - by apply assoc_col_snoc_eq.
Qed.

Lemma assoc_put_col_ne c col v d :
  c ≠ col -> assoc_col c (put_col col v d) = assoc_col c d.
Proof.
  intros Hne. unfold put_col. case_bool_decide.
  - by apply assoc_replace_col_ne.
  - by apply assoc_col_snoc_ne.
Qed.

Lemma put_col_lengths n col v d :
  length v = n ->
  Forall (fun nc : string * column => length nc.2 = n) d ->
  Forall (fun nc : string * column => length nc.2 = n) (put_col col v d).
Proof.
  intros Hv Hd. unfold put_col. case_bool_decide.
  - apply Forall_fmap. eapply Forall_impl; [exact Hd|].
    intros [m c] Hc. unfold replace_col. simpl in *.
    by destruct (String.eqb m col).
  - apply Forall_app. split; [done|]. by constructor.
Qed.

Lemma getitem_is_Some df col : col ∈ df_columns df -> is_Some (getitem df col).
Proof. apply assoc_col_is_Some. Qed.

Lemma getitem_columns df col v : getitem df col = Some v -> col ∈ df_columns df.
Proof. apply assoc_col_names. Qed.

Lemma getitem_length df col v :
  wf_frame df -> getitem df col = Some v -> length v = index_len df.
Proof.
  intros [_ Hlen] Hv%assoc_col_elem.
  rewrite Forall_forall in Hlen. by apply (Hlen (col, v)).
Qed.

Lemma setitem_fit df col v :
  length v = index_len df ->
  setitem df col v = Some (mkDataFrame (index_len df) (put_col col v (data df))).
Proof.
  intros Hv. unfold setitem. rewrite Hv, Nat.eqb_refl.
  destruct (index_len df); simpl; [done|done].
Qed.

Lemma setitem_misfit df col v :
  index_len df ≠ 0 -> length v ≠ index_len df -> setitem df col v = None.
Proof.
  intros H0 Hv. unfold setitem.
  destruct (Nat.eqb_spec (index_len df) 0); [done|]. simpl.
  destruct (Nat.eqb_spec (length v) (index_len df)); done.
Qed.

Lemma align_fit n v : length v = n -> align n v = v.
Proof.
  intros <-. unfold align. rewrite firstn_all, Nat.sub_diag. simpl.
  apply app_nil_r.
Qed.

Lemma setitem_series_fit df col v :
  length v = index_len df ->
  setitem_series df col v = mkDataFrame (index_len df) (put_col col v (data df)).
Proof. intros Hv. unfold setitem_series. by rewrite align_fit. Qed.

(** ** Running the monad *)

Lemma bind_ok {A B} (m : M A) (k : A -> M B) w a w' :
  m w = (Ok a, w') -> bind m k w = k a w'.
Proof. unfold bind. by intros ->. Qed.

Lemma bind_raise {A B} (m : M A) (k : A -> M B) w e w' :
  m w = (Raise e, w') -> bind m k w = (Raise e, w').
Proof. unfold bind. by intros ->. Qed.

Lemma try_except_ok {A} (body : M A) handler w a w' :
  body w = (Ok a, w') -> try_except body handler w = (Ok a, w').
Proof. unfold try_except. by intros ->. Qed.

Lemma try_except_caught {A} (body : M A) handler w msg w' :
  body w = (Raise (PyException msg), w') ->
  try_except body handler w = handler msg w'.
Proof. unfold try_except. by intros ->. Qed.

Lemma load_ok l w df : heap w !! l = Some df -> load l w = (Ok df, w).
Proof. unfold load. by intros ->. Qed.

Lemma heap_store_last (h : list DataFrame) g g' :
  <[length h := g']> (h ++ [g]) = h ++ [g'].
Proof.
  replace (length h) with (length h + 0) by lia.
  by rewrite insert_app_r.
Qed.

Lemma heap_lookup_last (h : list DataFrame) g : (h ++ [g]) !! length h = Some g.
Proof. by apply list_lookup_middle. Qed.

Lemma heap_lookup_old (h : list DataFrame) g l df :
  h !! l = Some df -> (h ++ [g]) !! l = Some df.
Proof. intros H. rewrite lookup_app_l; [done|]. by eapply lookup_lt_Some. Qed.

Lemma normal_length loc scale n g : length (normal loc scale n g).1 = n.
Proof.
  revert g. induction n as [|n IH]; intros g; simpl; [done|].
  destruct (gauss loc scale g) as [x g1].
  specialize (IH g1). destruct (normal loc scale n g1) as [xs g2].
  simpl in *. by rewrite IH.
Qed.

(** ** The enhancer, column by column *)

Lemma basic_bandpass_filter_length signal lo hi fs y :
  basic_bandpass_filter signal lo hi fs = inr y -> length y = length signal.
Proof.
  unfold basic_bandpass_filter.
  destruct (butter 4 _ _) as [msg|ba]; [done|]. apply filtfilt_length.
Qed.

Lemma enhanced_length bf y g : length (enhanced bf y g) = length y.
Proof.
  unfold enhanced.
  rewrite length_fmap, length_zip_with, normal_length, length_fmap. lia.
Qed.

Lemma except_branch df e col w h f g v :
  heap w = h ++ [g] -> e = length h -> h !! df = Some f ->
  getitem f col = Some v -> length v = index_len f ->
  same_shape f g -> col ∈ df_columns g ->
  exists w' g',
    enhance_except df e col w = (Ok tt, w') /\
    heap w' = h ++ [g'] /\ authenticated w' = authenticated w /\
    clock w' = clock w /\ np_random w' = np_random w /\
    page w' = page w ++ [st_error ("Demo processing error for " +:+ col)] /\
    same_shape f g' /\
    (forall c, c ≠ col -> getitem g' c = getitem g c) /\
    getitem g' col = Some v.
Proof.
  intros Hh -> Hdf Hv Hlen (Hn & Hc & Hl) Hcol.
  eexists _, (mkDataFrame (index_len g) (put_col col v (data g))).
  split.
  { unfold enhance_except, emit, df_getitem, df_setitem_series.
    unfold bind at 1. simpl.
    erewrite bind_ok; cycle 1.
    { erewrite bind_ok; cycle 1.
      { apply load_ok. simpl. rewrite Hh. by apply heap_lookup_old. }
      rewrite Hv. reflexivity. }
    erewrite bind_ok; cycle 1.
    { apply load_ok. simpl. rewrite Hh. apply heap_lookup_last. }
    unfold store. simpl. rewrite setitem_series_fit by congruence.
    rewrite Hh, heap_store_last. reflexivity. }
  simpl. repeat split; try done.
  - by rewrite <- Hc; apply put_col_names.
  - simpl. apply put_col_lengths; [congruence | done].
  - intros c Hne. by apply assoc_put_col_ne.
  - apply assoc_put_col_eq.
Qed.

(** The [try] body, run on a column that is there: the filter sees the
    first [MAX_ROWS] values of a longer column and the whole of a shorter
    one; when it returns, the noise is drawn and the assignment is tried. *)
Lemma enhance_try_run df e col bf lo hi w f v :
  heap w !! df = Some f -> getitem f col = Some v ->
  enhance_try df e col bf lo hi w =
    match basic_bandpass_filter
            (if MAX_ROWS <? length v then take MAX_ROWS v else v) lo hi 256 with
    | inl msg => (Raise (PyException msg), w)
    | inr y =>
        df_setitem e col (enhanced bf y (np_random w))
          (with_rng w (drawn bf y (np_random w)))
    end.
Proof.
  intros Hdf Hv. unfold enhance_try.
  erewrite bind_ok; cycle 1.
  { unfold df_getitem. erewrite bind_ok by (by apply load_ok).
    rewrite Hv. reflexivity. }
  destruct (basic_bandpass_filter _ lo hi 256) as [msg|y]; simpl.
  - by apply bind_raise.
  - erewrite bind_ok by reflexivity.
    unfold bind, np_random_normal, enhanced, drawn, with_rng.
    destruct (normal _ _ _ _) as [xs g]. reflexivity.
Qed.

Lemma df_setitem_fit e col x w h g :
  heap w = h ++ [g] -> e = length h -> length x = index_len g ->
  df_setitem e col x w =
    (Ok tt, mkWorld (authenticated w) (np_random w) (clock w) (page w)
              (h ++ [mkDataFrame (index_len g) (put_col col x (data g))])).
Proof.
  intros Hh -> Hx. unfold df_setitem.
  erewrite bind_ok by (apply load_ok; rewrite Hh; apply heap_lookup_last).
  rewrite setitem_fit by done. unfold store.
  by rewrite Hh, heap_store_last.
Qed.

Lemma df_setitem_misfit e col x w h g :
  heap w = h ++ [g] -> e = length h ->
  index_len g ≠ 0 -> length x ≠ index_len g ->
  exists msg, df_setitem e col x w = (Raise (PyException msg), w).
Proof.
  intros Hh -> H0 Hx. unfold df_setitem. eexists.
  erewrite bind_ok by (apply load_ok; rewrite Hh; apply heap_lookup_last).
  rewrite setitem_misfit by done. reflexivity.
Qed.

(** One turn of the loop (lines 63-81). *)
Lemma enhance_column_spec df e col bf lo hi w h f g v :
  heap w = h ++ [g] -> e = length h -> h !! df = Some f ->
  getitem f col = Some v -> length v = index_len f ->
  same_shape f g -> col ∈ df_columns g ->
  exists w' g',
    try_except (enhance_try df e col bf lo hi)
               (fun _ => enhance_except df e col) w = (Ok tt, w') /\
    heap w' = h ++ [g'] /\ authenticated w' = authenticated w /\
    clock w' = clock w /\
    (exists evs, page w' = page w ++ evs) /\
    same_shape f g' /\
    (forall c, c ≠ col -> getitem g' c = getitem g c) /\
    column_outcome bf lo hi col v g' (page w').
Proof.
  intros Hh He Hdf Hv Hlen Hshape Hcol.
  assert (Hdf' : heap w !! df = Some f) by (rewrite Hh; by apply heap_lookup_old).
  pose proof (enhance_try_run df e col bf lo hi w f v Hdf' Hv) as Htry.
  (* every way into the handler ends the same *)
  assert (Hfail : forall w1 msg,
    column_fails lo hi v ->
    enhance_try df e col bf lo hi w = (Raise (PyException msg), w1) ->
    heap w1 = heap w -> authenticated w1 = authenticated w ->
    clock w1 = clock w -> page w1 = page w ->
    exists w' g',
      try_except (enhance_try df e col bf lo hi)
                 (fun _ => enhance_except df e col) w = (Ok tt, w') /\
      heap w' = h ++ [g'] /\ authenticated w' = authenticated w /\
      clock w' = clock w /\
      (exists evs, page w' = page w ++ evs) /\
      same_shape f g' /\
      (forall c, c ≠ col -> getitem g' c = getitem g c) /\
      column_outcome bf lo hi col v g' (page w')).
  { intros w1 msg Hf Hrun Hh1 Ha1 Hc1 Hp1.
    destruct (except_branch df e col w1 h f g v) as (w' & g' & Hex & Hh' & Ha' & Hc' & _ & Hp' & Hs' & Ho' & Hg');
      try done; [congruence|].
    exists w', g'. split; [by erewrite try_except_caught by exact Hrun|].
    split; [done|]. split; [congruence|]. split; [congruence|].
    split; [eexists; rewrite Hp', Hp1; reflexivity|].
    split; [done|]. split; [done|].
    left. split; [done|]. split; [done|].
    rewrite Hp'. apply elem_of_app. right. apply list_elem_of_here. }
  destruct (Nat.ltb_spec MAX_ROWS (length v)) as [Hlong|Hshort].
  - (* more rows than MAX_ROWS *)
    destruct (basic_bandpass_filter (take MAX_ROWS v) lo hi 256) as [msg|y] eqn:Hf.
    + eapply Hfail; [by left | exact Htry | done..].
    + apply basic_bandpass_filter_length in Hf.
      rewrite length_take in Hf.
      destruct Hshape as (Hn & _).
      destruct (df_setitem_misfit e col (enhanced bf y (np_random w))
                  (with_rng w (drawn bf y (np_random w))) h g)
        as [msg Hset]; try done.
      { lia. }
      { rewrite enhanced_length. lia. }
      rewrite Hset in Htry.
      eapply Hfail; [by left | exact Htry | done..].
  - (* the column fits *)
    destruct (basic_bandpass_filter v lo hi 256) as [msg|y] eqn:Hf.
    + eapply Hfail; [right; by eexists | exact Htry | done..].
    + pose proof (basic_bandpass_filter_length _ _ _ _ _ Hf) as Hy.
      destruct Hshape as (Hn & Hc & Hl).
      rewrite (df_setitem_fit e col _ _ h g) in Htry; try done;
        [|rewrite enhanced_length; congruence].
      eexists _, _. split; [by erewrite try_except_ok by exact Htry|].
      simpl. split; [done|]. split; [done|]. split; [done|].
      split; [exists []; by rewrite app_nil_r|].
      split.
      { split; [done|]. split; simpl.
        - by rewrite <- Hc; apply put_col_names.
        - apply put_col_lengths; [|done].
          rewrite enhanced_length. congruence. }
      split; [intros c Hne; by apply assoc_put_col_ne|].
      right. split; [done|]. exists y, (np_random w). split; [done|].
      apply assoc_put_col_eq.
Qed.

Lemma column_outcome_later bf lo hi col v g g' pg evs :
  getitem g' col = getitem g col ->
  column_outcome bf lo hi col v g pg ->
  column_outcome bf lo hi col v g' (pg ++ evs).
Proof.
  intros Hg [(Hf & Hv & Hev)|(Hlen & y & r & Hy & Hv)].
  - left. split; [done|]. split; [congruence|].
    apply elem_of_app. by left.
  - right. split; [done|]. exists y, r. split; [done | congruence].
Qed.

(** The loop over the signal columns (lines 63-81), by induction on the
    columns still to do.  The frame under construction keeps the shape of
    the input, columns outside the list keep their values, and each column
    of the list ends in one of the two outcomes. *)
Lemma enhance_loop_spec df e bf lo hi h f cols :
  h !! df = Some f -> e = length h -> wf_frame f ->
  (forall c, c ∈ cols -> c ∈ df_columns f) ->
  forall w g,
    heap w = h ++ [g] -> same_shape f g ->
    exists w' g',
      for_each cols (enhance_body df e bf lo hi) w = (Ok tt, w') /\
      heap w' = h ++ [g'] /\ authenticated w' = authenticated w /\
      clock w' = clock w /\
      (exists evs, page w' = page w ++ evs) /\
      same_shape f g' /\
      (forall c, c ∉ cols -> getitem g' c = getitem g c) /\
      (forall c v, c ∈ cols -> getitem f c = Some v ->
                   column_outcome bf lo hi c v g' (page w')).
Proof.
  intros Hdf He Hwf. induction cols as [|col cols IH]; intros Hcols w g Hh Hshape.
  - exists w, g. simpl. split; [done|]. split; [done|]. split; [done|].
    split; [done|]. split; [exists []; by rewrite app_nil_r|].
    split; [done|]. split; [done|].
    intros c v Hc. by apply elem_of_nil in Hc.
  - assert (Hcol : col ∈ df_columns f) by (apply Hcols, list_elem_of_here).
    destruct (getitem_is_Some f col Hcol) as [v Hv].
    destruct (enhance_column_spec df e col bf lo hi w h f g v)
      as (w1 & g1 & Hrun1 & Hh1 & Ha1 & Hc1 & [evs1 Hp1] & Hs1 & Hkeep1 & Hout1);
      try done.
    { by eapply getitem_length. }
    { destruct Hshape as (_ & -> & _). done. }
    destruct (IH (fun c Hc => Hcols c (list_elem_of_further _ _ _ Hc)) w1 g1 Hh1 Hs1)
      as (w2 & g2 & Hrun2 & Hh2 & Ha2 & Hc2 & [evs2 Hp2] & Hs2 & Hkeep2 & Hout2).
    exists w2, g2.
    split.
    { simpl. erewrite bind_ok by exact Hrun1. exact Hrun2. }
    split; [done|]. split; [congruence|]. split; [congruence|].
    split; [exists (evs1 ++ evs2); by rewrite Hp2, Hp1, app_assoc|].
    split; [done|].
    split.
    { intros c [Hne Hc]%not_elem_of_cons. rewrite Hkeep2 by done. by apply Hkeep1. }
    intros c u Hc Hu.
    destruct (decide (c ∈ cols)) as [Hin|Hnin]; [by apply Hout2|].
    apply elem_of_cons in Hc as [->|Hc]; [|done].
    assert (u = v) as -> by congruence.
    rewrite Hp2. apply column_outcome_later with g1; [by apply Hkeep2 | done].
Qed.

(** The enhancer as a whole (lines 56-83): it returns, the frame it returns
    is a new object with the shape of the input, the input and every other
    object are as before, columns that are not signal columns carry the
    input's values, and each signal column ends in one of the two
    outcomes. *)
Lemma demo_enhance_signals_spec df bf lo hi w f :
  heap w !! df = Some f -> wf_frame f ->
  exists w' out,
    demo_enhance_signals df bf lo hi w = (Ok (length (heap w)), w') /\
    heap w' = heap w ++ [out] /\ authenticated w' = authenticated w /\
    clock w' = clock w /\
    (exists evs, page w' = page w ++ evs) /\
    same_shape f out /\
    (forall c, ~ is_signal_col c -> getitem out c = getitem f c) /\
    (forall c v, is_signal_col c -> getitem f c = Some v ->
                 column_outcome bf lo hi c v out (page w')).
Proof.
  intros Hdf Hwf.
  set (w0 := mkWorld (authenticated w) (np_random w) (clock w) (page w)
                     (heap w ++ [f])).
  destruct (enhance_loop_spec df (length (heap w)) bf lo hi (heap w) f
              (filter is_signal_col (df_columns f)) Hdf eq_refl Hwf) with (w := w0) (g := f)
    as (w' & out & Hrun & Hh & Ha & Hc & Hp & Hs & Hkeep & Hout).
  { intros c Hin. by apply list_elem_of_filter in Hin as [_ Hin]. }
  { reflexivity. }
  { split; [done|]. split; [done|]. apply Hwf. }
  exists w', out. split.
  { unfold demo_enhance_signals.
    erewrite bind_ok; cycle 1.
    { unfold df_copy. erewrite bind_ok by (by apply load_ok). reflexivity. }
    erewrite bind_ok; cycle 1.
    { unfold df_get_columns. erewrite bind_ok; cycle 1.
      { apply load_ok. simpl. by apply heap_lookup_old. }
      reflexivity. }
    fold w0. unfold enhance_body in Hrun.
    erewrite bind_ok by exact Hrun. reflexivity. }
  split; [done|]. split; [done|]. split; [done|]. split; [done|].
  split; [done|]. split.
  - intros c Hns. apply Hkeep. intros Hin.
    by apply list_elem_of_filter in Hin as [Hsig _].
  - intros c v Hsig Hv. apply Hout; [|done].
    apply list_elem_of_filter. split; [done|]. by eapply getitem_columns.
Qed.

Lemma data_ext (d1 d2 : list (string * column)) :
  d1.*1 = d2.*1 -> NoDup d1.*1 ->
  (forall c, assoc_col c d1 = assoc_col c d2) -> d1 = d2.
Proof.
  revert d2. induction d1 as [|[n c1] d1 IH]; intros [|[m c2] d2] Hn Hnd Hv;
    try done.
  rewrite !fmap_cons in Hn. simpl in Hn. injection Hn as <- Hn.
  apply NoDup_cons in Hnd as [Hnin Hnd].
  pose proof (Hv n) as Hhead. simpl in Hhead. rewrite String.eqb_refl in Hhead.
  injection Hhead as <-. f_equal. apply IH; [done..|].
  intros c. destruct (String.eqb_spec n c) as [<-|Hne].
  - rewrite !assoc_col_None; [done | by rewrite <- Hn | done].
  - specialize (Hv c). simpl in Hv.
    by destruct (String.eqb_spec n c).
Qed.

Lemma frame_ext (f g : DataFrame) :
  index_len g = index_len f -> df_columns g = df_columns f ->
  NoDup (df_columns f) ->
  (forall c, getitem g c = getitem f c) -> g = f.
Proof.
  destruct f as [n d], g as [n' d']. unfold df_columns, getitem. simpl.
  intros -> Hc Hnd Hv. f_equal. apply data_ext; [done | by rewrite Hc | done].
Qed.

Lemma column_fails_not_both bf lo hi col v out pg :
  column_fails lo hi v ->
  column_outcome bf lo hi col v out pg ->
  getitem out col = Some v /\
  st_error ("Demo processing error for " +:+ col) ∈ pg.
Proof.
  intros Hf [(_ & Hv & Hev)|(Hlen & y & g & Hy & _)]; [done|].
  destruct Hf as [Hlong|[msg Hmsg]]; [lia | congruence].
Qed.

(** ** The claims about the enhancer *)

(** C1: for a signal column that the enhancer processes without an
    exception (the frame has at most [MAX_ROWS] rows, [butter] designs the
    filter and [filtfilt] returns), the output column is the input sequence
    run through the band-pass of order 4 with the cut-offs divided by the
    Nyquist frequency [0.5 * 256], applied forward and backward by
    [filtfilt], times [boost_factor], plus noise drawn element by element
    from the normal distribution with mean 0 and standard deviation 0.03
    times the standard deviation of the boosted sequence. *)
Theorem C1_enhanced_values df boost_factor lo hi w f col v ba filtered :
  heap w !! df = Some f -> wf_frame f ->
  is_signal_col col -> getitem f col = Some v ->
  length v <= MAX_ROWS ->
  butter 4 (lo / (0.5 * 256))%float (hi / (0.5 * 256))%float = inr ba ->
  filtfilt ba v = inr filtered ->
  exists e w' out g,
    demo_enhance_signals df boost_factor lo hi w = (Ok e, w') /\
    heap w' !! e = Some out /\
    let boosted := (fun x => (x * boost_factor)%float) <$> filtered in
    let noise := (normal 0 (0.03 * np_std boosted) (length boosted) g).1 in
    length noise = length boosted /\
    getitem out col = Some (CNum <$> zip_with PrimFloat.add boosted noise).
Proof.
  intros Hdf Hwf Hsig Hv Hlen Hba Hy.
  destruct (demo_enhance_signals_spec df boost_factor lo hi w f Hdf Hwf)
    as (w' & out & Hrun & Hh & _ & _ & _ & _ & _ & Hout).
  assert (Hfilter : basic_bandpass_filter v lo hi 256 = inr filtered).
  { unfold basic_bandpass_filter. by rewrite Hba. }
  destruct (Hout col v Hsig Hv) as [([Hlong|[msg Hmsg]] & _)|(_ & y & g & Hy' & Hg)];
    [lia | congruence |].
  assert (y = filtered) as -> by congruence.
  exists (length (heap w)), w', out, g.
  split; [done|]. split; [rewrite Hh; apply heap_lookup_last|].
  simpl. split; [apply normal_length | exact Hg].
Qed.

(** C2: the enhancer always returns.  A signal column whose processing
    raises (the filter raises, or the shortened result does not fit a frame
    of more than [MAX_ROWS] rows) comes out with its input values, and an
    error naming the column is put on the page; every other signal column
    comes out transformed. *)
Theorem C2_column_isolation df boost_factor lo hi w f :
  heap w !! df = Some f -> wf_frame f ->
  exists e w' out,
    demo_enhance_signals df boost_factor lo hi w = (Ok e, w') /\
    heap w' !! e = Some out /\
    forall col v,
      is_signal_col col -> getitem f col = Some v ->
      (column_fails lo hi v ->
         getitem out col = Some v /\
         st_error ("Demo processing error for " +:+ col) ∈ page w') /\
      (~ column_fails lo hi v ->
         exists filtered g,
           basic_bandpass_filter v lo hi 256 = inr filtered /\
           getitem out col = Some (enhanced boost_factor filtered g)).
Proof.
  intros Hdf Hwf.
  destruct (demo_enhance_signals_spec df boost_factor lo hi w f Hdf Hwf)
    as (w' & out & Hrun & Hh & _ & _ & _ & _ & _ & Hout).
  exists (length (heap w)), w', out.
  split; [done|]. split; [rewrite Hh; apply heap_lookup_last|].
  intros col v Hsig Hv. specialize (Hout col v Hsig Hv). split.
  - intros Hf. by eapply column_fails_not_both.
  - intros Hnf. destruct Hout as [(Hf & _)|(_ & y & g & Hy & Hg)]; [done|].
    by exists y, g.
Qed.

(** C3: the frame the enhancer returns has the column labels of the input
    in the same order and the same number of rows, in the index and in
    every column; a column whose lower-cased label is "time" has the
    input's values, so only signal columns can differ. *)
Theorem C3_shape_preserved df boost_factor lo hi w f :
  heap w !! df = Some f -> wf_frame f ->
  exists e w' out,
    demo_enhance_signals df boost_factor lo hi w = (Ok e, w') /\
    heap w' !! e = Some out /\
    df_columns out = df_columns f /\
    index_len out = index_len f /\
    wf_frame out /\
    forall col, lower col = "time" -> getitem out col = getitem f col.
Proof.
  intros Hdf Hwf.
  destruct (demo_enhance_signals_spec df boost_factor lo hi w f Hdf Hwf)
    as (w' & out & Hrun & Hh & _ & _ & _ & (Hn & Hc & Hl) & Hkeep & _).
  exists (length (heap w)), w', out.
  split; [done|]. split; [rewrite Hh; apply heap_lookup_last|].
  split; [done|]. split; [done|]. split.
  - split; [rewrite Hc; apply Hwf | done].
  - intros col Htime. apply Hkeep. unfold is_signal_col. by intros H.
Qed.

(** C9: in the [try] body, a column with more than [MAX_ROWS] values is cut
    to its first [MAX_ROWS] values before it is filtered, and filter, boost,
    noise and the assignment then work on that window. *)
Theorem C9_truncated_window df e col boost_factor lo hi w f v :
  heap w !! df = Some f -> getitem f col = Some v ->
  MAX_ROWS < length v ->
  length (take MAX_ROWS v) = MAX_ROWS /\
  enhance_try df e col boost_factor lo hi w =
    match basic_bandpass_filter (take MAX_ROWS v) lo hi 256 with
    | inl msg => (Raise (PyException msg), w)
    | inr filtered =>
        df_setitem e col (enhanced boost_factor filtered (np_random w))
          (with_rng w (drawn boost_factor filtered (np_random w)))
    end.
Proof.
  intros Hdf Hv Hlong. split.
  - rewrite length_take. lia.
  - rewrite (enhance_try_run df e col boost_factor lo hi w f v Hdf Hv).
    by destruct (Nat.ltb_spec MAX_ROWS (length v)); [|lia].
Qed.

(** C10: given a frame of more than [MAX_ROWS] rows, the enhancer returns
    a frame equal to its input: for every signal column the window of
    [MAX_ROWS] values cannot be assigned to the longer frame, the handler
    reports the column and puts the input's values back. *)
Theorem C10_long_frame_unchanged df boost_factor lo hi w f :
  heap w !! df = Some f -> wf_frame f ->
  MAX_ROWS < index_len f ->
  exists e w',
    demo_enhance_signals df boost_factor lo hi w = (Ok e, w') /\
    heap w' !! e = Some f /\
    forall col, col ∈ df_columns f -> is_signal_col col ->
                st_error ("Demo processing error for " +:+ col) ∈ page w'.
Proof.
  intros Hdf Hwf Hlong.
  destruct (demo_enhance_signals_spec df boost_factor lo hi w f Hdf Hwf)
    as (w' & out & Hrun & Hh & _ & _ & _ & (Hn & Hc & Hl) & Hkeep & Hout).
  assert (Hall : forall col v, is_signal_col col -> getitem f col = Some v ->
            getitem out col = Some v /\
            st_error ("Demo processing error for " +:+ col) ∈ page w').
  { intros col v Hsig Hv. eapply column_fails_not_both; [|by apply Hout].
    left. erewrite getitem_length by done. done. }
  assert (out = f) as ->.
  { apply frame_ext; [done | done | apply Hwf |].
    intros c.
    destruct (decide (is_signal_col c)) as [Hsig|Hns]; [|by apply Hkeep].
    destruct (getitem f c) as [v|] eqn:Hv.
    - by apply Hall.
    - apply assoc_col_None. fold (df_columns out).
      rewrite Hc. intros Hin. apply getitem_is_Some in Hin as [? ?]. congruence. }
  exists (length (heap w)), w'.
  split; [done|]. split; [rewrite Hh; apply heap_lookup_last|].
  intros col Hin Hsig. destruct (getitem_is_Some f col Hin) as [v Hv].
  by apply (Hall col v).
Qed.

(** ** The watermark *)

Lemma add_watermark_fresh df w f :
  heap w !! df = Some f -> "DEMO_WATERMARK" ∉ df_columns f ->
  let marker := WATERMARK_TEXT (strftime_seconds (clock w 0)) in
  add_watermark df w =
    (Ok (df, marker),
     mkWorld (authenticated w) (np_random w) (fun i => clock w (S i)) (page w)
             (<[df := stamped_with marker f]> (heap w))).
Proof.
  intros Hdf Hfresh. simpl. unfold add_watermark.
  erewrite bind_ok by reflexivity.
  erewrite bind_ok; [reflexivity|].
  unfold df_insert0. erewrite bind_ok by (by apply load_ok).
  unfold insert0. by rewrite bool_decide_eq_false_2.
Qed.

Lemma add_watermark_taken df w f :
  heap w !! df = Some f -> "DEMO_WATERMARK" ∈ df_columns f ->
  add_watermark df w =
    (Raise (PyException "cannot insert DEMO_WATERMARK, already exists"), tick w).
Proof.
  intros Hdf Htaken. unfold add_watermark.
  erewrite bind_ok by reflexivity.
  apply bind_raise.
  unfold df_insert0. erewrite bind_ok by (by apply load_ok).
  unfold insert0. by rewrite bool_decide_eq_true_2.
Qed.

(** C8, as the code has it: on a frame without a column DEMO_WATERMARK the
    stamp returns the frame it was given with exactly one new column at
    position 0, labelled DEMO_WATERMARK, that holds the marker (the fixed
    label and the clock's reading to the second) in every row; labels,
    order, values and row count are otherwise those of the input, and the
    result is a function of the frame and the reading.  On a frame that has
    such a column the stamp raises and the frame stays as it was. *)
Theorem C8_watermark df w f :
  heap w !! df = Some f ->
  let marker := WATERMARK_TEXT (strftime_seconds (clock w 0)) in
  ("DEMO_WATERMARK" ∉ df_columns f ->
     exists w',
       add_watermark df w = (Ok (df, marker), w') /\
       heap w' !! df = Some (stamped_with marker f) /\
       df_columns (stamped_with marker f) = "DEMO_WATERMARK" :: df_columns f /\
       index_len (stamped_with marker f) = index_len f /\
       getitem (stamped_with marker f) "DEMO_WATERMARK"
         = Some (replicate (index_len f) (CStr marker)) /\
       forall col, col ∈ df_columns f ->
                   getitem (stamped_with marker f) col = getitem f col) /\
  ("DEMO_WATERMARK" ∈ df_columns f ->
     exists w',
       add_watermark df w =
         (Raise (PyException "cannot insert DEMO_WATERMARK, already exists"), w') /\
       heap w' = heap w).
Proof.
  intros Hdf marker. split.
  - intros Hfresh. eexists. split; [by apply add_watermark_fresh|].
    split; [simpl; apply list_lookup_insert_eq; by eapply lookup_lt_Some|].
    split; [done|]. split; [done|]. split; [done|].
    intros col Hcol. apply assoc_col_cons_ne. by intros <-.
  - intros Htaken. eexists. split; [by eapply add_watermark_taken|done].
Qed.

(** C4, as the code has it: the enhancer returns a new frame and leaves
    every frame that existed, its input among them, as it was.  The
    watermark is inserted into the frame that is passed in, which is the
    frame returned; no other frame changes.  So after both stages the
    frame that went into the enhancer is still the one that was uploaded. *)
Theorem C4_original_kept df boost_factor lo hi w f :
  heap w !! df = Some f -> wf_frame f ->
  exists e w1,
    demo_enhance_signals df boost_factor lo hi w = (Ok e, w1) /\
    e ≠ df /\
    (forall l x, heap w !! l = Some x -> heap w1 !! l = Some x) /\
    forall r w2,
      add_watermark e w1 = (r, w2) ->
      heap w2 !! df = Some f /\
      (forall l x, l ≠ e -> heap w1 !! l = Some x -> heap w2 !! l = Some x) /\
      (forall e' marker, r = Ok (e', marker) ->
         e' = e /\
         exists out, heap w1 !! e = Some out /\
                     heap w2 !! e = Some (stamped_with marker out)).
Proof.
  intros Hdf Hwf.
  destruct (demo_enhance_signals_spec df boost_factor lo hi w f Hdf Hwf)
    as (w1 & out & Hrun & Hh & _ & _ & _ & _ & _ & _).
  pose proof (lookup_lt_Some _ _ _ Hdf) as Hlt.
  assert (Hold : forall l x, heap w !! l = Some x -> heap w1 !! l = Some x).
  { intros l x Hl. rewrite Hh. by apply heap_lookup_old. }
  assert (He : heap w1 !! length (heap w) = Some out).
  { rewrite Hh. apply heap_lookup_last. }
  exists (length (heap w)), w1.
  split; [done|]. split; [lia|]. split; [done|].
  intros r w2 Hmark.
  destruct (decide ("DEMO_WATERMARK" ∈ df_columns out)) as [Htaken|Hfresh].
  - rewrite (add_watermark_taken _ _ _ He Htaken) in Hmark.
    injection Hmark as <- <-. simpl.
    split; [by apply Hold|]. split; [done|]. intros e' marker [=].
  - rewrite (add_watermark_fresh _ _ _ He Hfresh) in Hmark.
    injection Hmark as <- <-. simpl.
    split; [rewrite list_lookup_insert_ne by lia; by apply Hold|].
    split; [intros l x Hne Hl; by rewrite list_lookup_insert_ne|].
    intros e' marker [= <- <-]. split; [done|].
    exists out. split; [done|].
    apply list_lookup_insert_eq. by eapply lookup_lt_Some.
Qed.

(** ** The limits of the application *)

Lemma getitem_head n f col :
  getitem (head n f) col = take n <$> getitem f col.
Proof.
  unfold getitem, head. simpl.
  induction (data f) as [|[m c] d IH]; [done|].
  rewrite fmap_cons. simpl. by destruct (String.eqb m col).
Qed.

Lemma df_columns_head n f : df_columns (head n f) = df_columns f.
Proof.
  unfold df_columns, head. simpl.
  induction (data f) as [|[m c] d IH]; [done|].
  rewrite !fmap_cons. simpl. by f_equal.
Qed.

(** C6: a frame of more than [MAX_ROWS] rows is replaced by a frame of
    exactly [MAX_ROWS] rows, the first [MAX_ROWS] of each column, and a
    warning is put on the page; a frame of at most [MAX_ROWS] rows is kept
    as it is and nothing is put on the page. *)
Theorem C6_row_limit df w f :
  heap w !! df = Some f ->
  (MAX_ROWS < index_len f ->
     exists df' w',
       limit_rows df w = (Ok df', w') /\
       heap w' !! df' = Some (head MAX_ROWS f) /\
       index_len (head MAX_ROWS f) = MAX_ROWS /\
       df_columns (head MAX_ROWS f) = df_columns f /\
       (forall col, getitem (head MAX_ROWS f) col
                    = take MAX_ROWS <$> getitem f col) /\
       page w' = page w ++ [st_warning "Demo limited to first 500 rows"]) /\
  (index_len f <= MAX_ROWS -> limit_rows df w = (Ok df, w)).
Proof.
  intros Hdf. unfold limit_rows. split.
  - intros Hlong.
    erewrite bind_ok; cycle 1.
    { unfold df_len. erewrite bind_ok by (by apply load_ok). reflexivity. }
    destruct (Nat.ltb_spec MAX_ROWS (index_len f)); [|lia].
    erewrite bind_ok; cycle 1.
    { unfold df_head. erewrite bind_ok by (by apply load_ok). reflexivity. }
    eexists _, _. split; [reflexivity|].
    split; [apply heap_lookup_last|].
    split; [unfold head; cbn [index_len]; lia|].
    split; [apply df_columns_head|].
    split; [intros col; apply getitem_head | reflexivity].
  - intros Hshort.
    erewrite bind_ok; cycle 1.
    { unfold df_len. erewrite bind_ok by (by apply load_ok). reflexivity. }
    by destruct (Nat.ltb_spec MAX_ROWS (index_len f)); [lia|].
Qed.

Lemma check_auth_passes ui w :
  authenticated w = Some true -> check_auth ui w = (Ok true, w).
Proof.
  intros Ha. unfold check_auth.
  erewrite bind_ok by reflexivity. rewrite Ha.
  erewrite bind_ok by reflexivity.
  erewrite bind_ok by reflexivity. by rewrite Ha.
Qed.

(** C7: when the size of the upload exceeds [MAX_FILE_SIZE], the run ends
    with the error "File too large" whatever [read_csv] would make of the
    content; when it does not, the content is parsed, and a failure of the
    parser is what the page reports. *)
Theorem C7_size_ceiling ui w file :
  authenticated w = Some true -> uploaded_file ui = Some file ->
  ((MAX_FILE_SIZE < size file)%Z ->
     main ui w =
       (Ok tt, mkWorld (authenticated w) (np_random w) (clock w)
                 (page w ++ [st_error "File too large for demo. Max: 2.0MB"])
                 (heap w))) /\
  ((size file <= MAX_FILE_SIZE)%Z ->
     forall msg, read_csv (content file) = inl msg ->
     main ui w =
       (Ok tt, mkWorld (authenticated w) (np_random w) (clock w)
                 (page w ++ [st_error ("Demo error: " +:+ msg)])
                 (heap w))).
Proof.
  intros Ha Hfile. unfold main.
  erewrite bind_ok by (by apply check_auth_passes).
  simpl. rewrite Hfile. split.
  - intros Hbig. by destruct (Z.ltb_spec MAX_FILE_SIZE (size file)); [|lia].
  - intros Hfits msg Hmsg.
    destruct (Z.ltb_spec MAX_FILE_SIZE (size file)); [lia|].
    erewrite try_except_caught; [reflexivity|].
    apply bind_raise. by rewrite Hmsg.
Qed.

(** ** The access check *)

Lemma check_auth_accept ui w :
  authenticated w ≠ Some true -> access_clicked ui = true ->
  access_code ui = "Demo2025" ->
  check_auth ui w =
    (Raise RerunException,
     mkWorld (Some true) (np_random w) (clock w) (page w) (heap w)).
Proof.
  intros Ha Hclick Hcode.
  unfold check_auth, bind, session_get, session_set, emit, ret, raise.
  rewrite Hclick, Hcode. cbv beta.
  destruct w as [[[|]|] g c p h]; [done|reflexivity|reflexivity].
Qed.

Lemma check_auth_reject ui w :
  authenticated w ≠ Some true -> access_clicked ui = true ->
  access_code ui ≠ "Demo2025" ->
  check_auth ui w =
    (Raise StopException,
     mkWorld (Some false) (np_random w) (clock w)
             (page w ++ [st_error "Invalid access code"]) (heap w)).
Proof.
  intros Ha Hclick Hcode.
  unfold check_auth, bind, session_get, session_set, emit, ret, raise.
  rewrite Hclick. cbv beta.
  destruct (String.eqb_spec (access_code ui) "Demo2025") as [|_]; [done|].
  destruct w as [[[|]|] g c p h]; [done|reflexivity|reflexivity].
Qed.

(** C5: when a code is submitted in a session that is not authenticated,
    the flag is true afterwards exactly when the code is "Demo2025"; for
    any other code the flag is false, the page shows "Invalid access
    code" and the run stops. *)
Theorem C5_access_check ui w :
  authenticated w ≠ Some true -> access_clicked ui = true ->
  (authenticated (check_auth ui w).2 = Some true <-> access_code ui = "Demo2025") /\
  (access_code ui ≠ "Demo2025" ->
     authenticated (check_auth ui w).2 = Some false /\
     (check_auth ui w).1 = Raise StopException /\
     page (check_auth ui w).2 = page w ++ [st_error "Invalid access code"]).
Proof.
  intros Ha Hclick. split.
  - destruct (decide (access_code ui = "Demo2025")) as [Heq|Hne].
    + by rewrite check_auth_accept.
    + rewrite check_auth_reject by done. simpl. split; [done | by intros].
  - intros Hne. by rewrite check_auth_reject.
Qed.

(** ** The enhancer, exactly *)

Lemma failing_columns_cons lo hi f c cols :
  failing_columns lo hi f (c :: cols)
  = failing_columns lo hi f [c] ++ failing_columns lo hi f cols.
Proof. unfold failing_columns. by rewrite <- filter_app. Qed.

Lemma failing_columns_one lo hi f c :
  failing_columns lo hi f [c]
  = if decide (column_fails lo hi (column_of f c)) then [c] else [].
Proof.
  unfold failing_columns. rewrite filter_cons, filter_nil. by case_decide.
Qed.

Lemma draws_after_cons bf lo hi f c cols g :
  draws_after bf lo hi f (c :: cols) g
  = draws_after bf lo hi f cols (draws_after bf lo hi f [c] g).
Proof. simpl. by destruct (basic_bandpass_filter _ lo hi 256). Qed.

(** One turn of the loop, with the whole state it leaves. *)
Lemma enhance_body_exact df e col bf lo hi w h f g :
  heap w = h ++ [g] -> e = length h -> h !! df = Some f ->
  wf_frame f -> col ∈ df_columns f -> same_shape f g ->
  exists g',
    enhance_body df e bf lo hi col w =
      (Ok tt,
       mkWorld (authenticated w) (draws_after bf lo hi f [col] (np_random w))
               (clock w)
               (page w ++ (error_for <$> failing_columns lo hi f [col]))
               (h ++ [g'])) /\
    same_shape f g'.
Proof.
  intros Hh He Hdf Hwf Hcol Hshape.
  destruct (getitem_is_Some f col Hcol) as [v Hv].
  pose proof (getitem_length f col v Hwf Hv) as Hlen.
  assert (Hdf' : heap w !! df = Some f) by (rewrite Hh; by apply heap_lookup_old).
  assert (Hcolg : col ∈ df_columns g) by (destruct Hshape as (_ & -> & _); done).
  pose proof (enhance_try_run df e col bf lo hi w f v Hdf' Hv) as Htry.
  assert (Hcv : column_of f col = v) by (unfold column_of; by rewrite Hv).
  rewrite failing_columns_one. cbn [draws_after]. rewrite Hcv. unfold window.
  (* the handler, entered from a state that differs from [w] in the generator *)
  assert (Hhandler : forall gen msg,
    enhance_try df e col bf lo hi w = (Raise (PyException msg), with_rng w gen) ->
    exists g',
      enhance_body df e bf lo hi col w =
        (Ok tt, mkWorld (authenticated w) gen (clock w)
                  (page w ++ [error_for col]) (h ++ [g'])) /\
      same_shape f g').
  { intros gen msg Hrun.
    destruct (except_branch df e col (with_rng w gen) h f g v)
      as (w' & g' & Hex & Hh' & Ha' & Hc' & Hg' & Hp' & Hs' & _); try done.
    exists g'. split; [|done].
    unfold enhance_body. erewrite try_except_caught by exact Hrun.
    rewrite Hex. f_equal. destruct w'. simpl in *. by subst. }
  destruct (Nat.ltb_spec MAX_ROWS (length v)) as [Hlong|Hshort].
  - rewrite decide_True by (by left). simpl.
    destruct (basic_bandpass_filter (take MAX_ROWS v) lo hi 256) as [msg|y] eqn:Hf.
    + apply (Hhandler (np_random w) msg). rewrite Htry. by destruct w.
    + apply basic_bandpass_filter_length in Hf. rewrite length_take in Hf.
      destruct Hshape as (Hn & Hc & Hl).
      destruct (df_setitem_misfit e col (enhanced bf y (np_random w))
                  (with_rng w (drawn bf y (np_random w))) h g)
        as [msg Hset]; try done; [lia | rewrite enhanced_length; lia |].
      apply (Hhandler _ msg). by rewrite Htry.
  - destruct (basic_bandpass_filter v lo hi 256) as [msg|y] eqn:Hf.
    + rewrite decide_True by (right; by exists msg). simpl.
      apply (Hhandler (np_random w) msg). rewrite Htry. by destruct w.
    + rewrite decide_False; cycle 1.
      { intros [Hlong|[msg Hmsg]]; [lia | congruence]. }
      simpl. rewrite app_nil_r.
      pose proof (basic_bandpass_filter_length _ _ _ _ _ Hf) as Hy.
      destruct Hshape as (Hn & Hc & Hl).
      rewrite (df_setitem_fit e col _ _ h g) in Htry; try done;
        [|rewrite enhanced_length; congruence].
      eexists. split.
      { unfold enhance_body. erewrite try_except_ok by exact Htry. reflexivity. }
      split; [done|]. split; simpl.
      * by rewrite <- Hc; apply put_col_names.
      * apply put_col_lengths; [|done]. rewrite enhanced_length. congruence.
Qed.

Lemma enhance_loop_exact df e bf lo hi h f cols :
  h !! df = Some f -> e = length h -> wf_frame f ->
  (forall c, c ∈ cols -> c ∈ df_columns f) ->
  forall w g,
    heap w = h ++ [g] -> same_shape f g ->
    exists g',
      for_each cols (enhance_body df e bf lo hi) w =
        (Ok tt,
         mkWorld (authenticated w) (draws_after bf lo hi f cols (np_random w))
                 (clock w)
                 (page w ++ (error_for <$> failing_columns lo hi f cols))
                 (h ++ [g'])) /\
      same_shape f g'.
Proof.
  intros Hdf He Hwf. induction cols as [|col cols IH]; intros Hcols w g Hh Hshape.
  - exists g. split; [|done]. simpl. unfold ret.
    rewrite app_nil_r, <- Hh. by destruct w.
  - destruct (enhance_body_exact df e col bf lo hi w h f g) as (g1 & Hrun1 & Hs1);
      try done; [apply Hcols, list_elem_of_here|].
    destruct (IH (fun c Hc => Hcols c (list_elem_of_further _ _ _ Hc))
                (mkWorld (authenticated w)
                   (draws_after bf lo hi f [col] (np_random w)) (clock w)
                   (page w ++ (error_for <$> failing_columns lo hi f [col]))
                   (h ++ [g1]))
                g1 eq_refl Hs1)
      as (g2 & Hrun2 & Hs2).
    exists g2. split; [|done].
    simpl for_each. erewrite bind_ok by exact Hrun1. rewrite Hrun2.
    cbn [authenticated np_random clock page heap].
    rewrite (failing_columns_cons lo hi f col cols), fmap_app, app_assoc.
    by rewrite (draws_after_cons bf lo hi f col cols).
Qed.

(** The state the enhancer leaves (lines 56-83). *)
Lemma demo_enhance_signals_exact df bf lo hi w f :
  heap w !! df = Some f -> wf_frame f ->
  exists out,
    demo_enhance_signals df bf lo hi w =
      (Ok (length (heap w)),
       mkWorld (authenticated w)
               (draws_after bf lo hi f (filter is_signal_col (df_columns f))
                  (np_random w))
               (clock w)
               (page w ++ (error_for <$>
                  failing_columns lo hi f (filter is_signal_col (df_columns f))))
               (heap w ++ [out])) /\
    same_shape f out /\
    (forall c, ~ is_signal_col c -> getitem out c = getitem f c) /\
    (forall c v, is_signal_col c -> getitem f c = Some v ->
                 column_outcome bf lo hi c v out
                   (page w ++ (error_for <$>
                      failing_columns lo hi f (filter is_signal_col (df_columns f))))).
Proof.
  intros Hdf Hwf.
  destruct (demo_enhance_signals_spec df bf lo hi w f Hdf Hwf)
    as (w' & out & Hrun & Hh & _ & _ & _ & Hs & Hkeep & Hout).
  set (w0 := mkWorld (authenticated w) (np_random w) (clock w) (page w)
                     (heap w ++ [f])).
  destruct (enhance_loop_exact df (length (heap w)) bf lo hi (heap w) f
              (filter is_signal_col (df_columns f)) Hdf eq_refl Hwf) with (w := w0) (g := f)
    as (out' & Hloop & _).
  { intros c Hin. by apply list_elem_of_filter in Hin as [_ Hin]. }
  { reflexivity. }
  { split; [done|]. split; [done|]. apply Hwf. }
  assert (Hrun' : demo_enhance_signals df bf lo hi w =
    (Ok (length (heap w)),
     mkWorld (authenticated w)
       (draws_after bf lo hi f (filter is_signal_col (df_columns f)) (np_random w))
       (clock w)
       (page w ++ (error_for <$>
          failing_columns lo hi f (filter is_signal_col (df_columns f))))
       (heap w ++ [out']))).
  { unfold demo_enhance_signals.
    erewrite bind_ok; cycle 1.
    { unfold df_copy. erewrite bind_ok by (by apply load_ok). reflexivity. }
    erewrite bind_ok; cycle 1.
    { unfold df_get_columns. erewrite bind_ok; cycle 1.
      { apply load_ok. simpl. by apply heap_lookup_old. }
      reflexivity. }
    fold w0. unfold enhance_body in Hloop.
    erewrite bind_ok by exact Hloop. reflexivity. }
  rewrite Hrun' in Hrun. injection Hrun as <-. simpl in Hh.
  apply app_inv_head in Hh. injection Hh as ->.
  exists out. split; [done|]. split; [done|]. split; [done|]. exact Hout.
Qed.

Lemma filter_all {A} (P : A -> Prop) `{!forall x, Decision (P x)} (l : list A) :
  (forall x, x ∈ l -> P x) -> filter P l = l.
Proof.
  induction l as [|x l IH]; intros Hall; [done|].
  rewrite filter_cons_True by apply Hall, list_elem_of_here.
  f_equal. apply IH. intros y Hy. by apply Hall, list_elem_of_further.
Qed.

Lemma filter_none {A} (P : A -> Prop) `{!forall x, Decision (P x)} (l : list A) :
  (forall x, x ∈ l -> ~ P x) -> filter P l = [].
Proof.
  induction l as [|x l IH]; intros Hall; [done|].
  rewrite filter_cons_False by apply Hall, list_elem_of_here.
  apply IH. intros y Hy. by apply Hall, list_elem_of_further.
Qed.

Lemma draws_after_filter_raises bf lo hi f cols g :
  (forall v, exists msg, basic_bandpass_filter v lo hi 256 = inl msg) ->
  draws_after bf lo hi f cols g = g.
Proof.
  intros Hraise. induction cols as [|c cols IH]; [done|]. simpl.
  destruct (Hraise (window (column_of f c))) as [msg ->]. exact IH.
Qed.

(** When every signal column that is there fails, the frame that comes
    back is the input. *)
Lemma unchanged_when_all_fail bf lo hi f out pg :
  wf_frame f -> same_shape f out ->
  (forall c, ~ is_signal_col c -> getitem out c = getitem f c) ->
  (forall c v, is_signal_col c -> getitem f c = Some v ->
               column_outcome bf lo hi c v out pg) ->
  (forall c v, is_signal_col c -> getitem f c = Some v -> column_fails lo hi v) ->
  out = f.
Proof.
  intros Hwf (Hn & Hc & _) Hkeep Hout Hfail.
  apply frame_ext; [done | done | apply Hwf |].
  intros c. destruct (decide (is_signal_col c)) as [Hsig|Hns]; [|by apply Hkeep].
  destruct (getitem f c) as [v|] eqn:Hv.
  - eapply column_fails_not_both; [by eapply Hfail | by apply Hout].
  - apply assoc_col_None. fold (df_columns out).
    rewrite Hc. intros Hin. apply getitem_is_Some in Hin as [? ?]. congruence.
Qed.

(** ** Further properties of the enhancer *)

(** The page after the enhancer: one error for each signal column that
    fails, in the order of the columns, and nothing else. *)
Theorem enhancer_error_report df boost_factor lo hi w f :
  heap w !! df = Some f -> wf_frame f ->
  exists e w',
    demo_enhance_signals df boost_factor lo hi w = (Ok e, w') /\
    page w' = page w ++
      ((fun c => st_error ("Demo processing error for " +:+ c)) <$>
         filter (fun c => column_fails lo hi (column_of f c))
           (filter is_signal_col (df_columns f))).
Proof.
  intros Hdf Hwf.
  destruct (demo_enhance_signals_exact df boost_factor lo hi w f Hdf Hwf)
    as (out & Hrun & _).
  eexists _, _. split; [exact Hrun|]. reflexivity.
Qed.

(** The generator after the enhancer: it advanced by the draws of the
    signal columns, in order, on whose window the filter returned; the
    columns of a frame of more than [MAX_ROWS] rows draw their noise
    although the result is dropped, and a column whose filter raises
    draws nothing. *)
Theorem enhancer_draws df boost_factor lo hi w f :
  heap w !! df = Some f -> wf_frame f ->
  exists e w',
    demo_enhance_signals df boost_factor lo hi w = (Ok e, w') /\
    np_random w' =
      draws_after boost_factor lo hi f (filter is_signal_col (df_columns f))
        (np_random w) /\
    authenticated w' = authenticated w /\ clock w' = clock w.
Proof.
  intros Hdf Hwf.
  destruct (demo_enhance_signals_exact df boost_factor lo hi w f Hdf Hwf)
    as (out & Hrun & _).
  eexists _, _. split; [exact Hrun|]. done.
Qed.

(** When [butter] refuses the band (the sliders allow a low cut above the
    high cut), the enhancer returns a frame equal to its input, reports
    every signal column and draws no noise. *)
Theorem enhancer_design_failure df boost_factor lo hi w f msg :
  heap w !! df = Some f -> wf_frame f ->
  butter 4 (lo / (0.5 * 256))%float (hi / (0.5 * 256))%float = inl msg ->
  demo_enhance_signals df boost_factor lo hi w =
    (Ok (length (heap w)),
     mkWorld (authenticated w) (np_random w) (clock w)
       (page w ++ ((fun c => st_error ("Demo processing error for " +:+ c)) <$>
                     filter is_signal_col (df_columns f)))
       (heap w ++ [f])).
Proof.
  intros Hdf Hwf Hbutter.
  assert (Hraise : forall v, exists m, basic_bandpass_filter v lo hi 256 = inl m).
  { intros v. exists msg. unfold basic_bandpass_filter. by rewrite Hbutter. }
  destruct (demo_enhance_signals_exact df boost_factor lo hi w f Hdf Hwf)
    as (out & Hrun & Hs & Hkeep & Hout).
  assert (out = f) as ->.
  { eapply unchanged_when_all_fail; try done.
    intros c v _ _. right. apply Hraise. }
  rewrite Hrun. f_equal. f_equal.
  - by apply draws_after_filter_raises.
  - f_equal. unfold failing_columns. f_equal.
    apply filter_all. intros c _. right. apply Hraise.
Qed.

(** A frame without signal columns (only time axes, or no column at all)
    is copied: the frame that comes back equals the input, nothing is put
    on the page and no noise is drawn. *)
Theorem enhancer_without_signal_columns df boost_factor lo hi w f :
  heap w !! df = Some f -> wf_frame f ->
  (forall c, c ∈ df_columns f -> lower c = "time") ->
  demo_enhance_signals df boost_factor lo hi w =
    (Ok (length (heap w)),
     mkWorld (authenticated w) (np_random w) (clock w) (page w) (heap w ++ [f])).
Proof.
  intros Hdf Hwf Htime.
  destruct (demo_enhance_signals_exact df boost_factor lo hi w f Hdf Hwf)
    as (out & Hrun & Hs & Hkeep & Hout).
  assert (Hnone : filter is_signal_col (df_columns f) = []).
  { apply filter_none. intros c Hc Hsig. by apply Hsig, Htime. }
  assert (out = f) as ->.
  { eapply unchanged_when_all_fail; try done.
    intros c v Hsig Hv. destruct Hsig. by eapply Htime, getitem_columns. }
  rewrite Hrun, Hnone. simpl. by rewrite app_nil_r.
Qed.

(** Whatever the enhancer writes is numeric: a column of the result that
    differs from the input's column holds numbers only, one per row of the
    input. *)
Theorem enhancer_writes_numbers_only df boost_factor lo hi w f :
  heap w !! df = Some f -> wf_frame f ->
  exists e w' out,
    demo_enhance_signals df boost_factor lo hi w = (Ok e, w') /\
    heap w' !! e = Some out /\
    forall col v v',
      getitem f col = Some v -> getitem out col = Some v' -> v' ≠ v ->
      length v' = index_len f /\
      Forall (fun c => exists x, c = CNum x) v'.
Proof.
  intros Hdf Hwf.
  destruct (demo_enhance_signals_spec df boost_factor lo hi w f Hdf Hwf)
    as (w' & out & Hrun & Hh & _ & _ & _ & (Hn & _ & Hl) & Hkeep & Hout).
  exists (length (heap w)), w', out.
  split; [done|]. split; [rewrite Hh; apply heap_lookup_last|].
  intros col v v' Hv Hv' Hne.
  destruct (decide (is_signal_col col)) as [Hsig|Hns]; cycle 1.
  { rewrite (Hkeep col Hns) in Hv'. congruence. }
  destruct (Hout col v Hsig Hv) as [(_ & Hsame & _)|(_ & y & g & _ & Hy)];
    [congruence|].
  assert (v' = enhanced boost_factor y g) as -> by congruence. split.
  - rewrite <- Hn. apply assoc_col_elem in Hv'.
    rewrite Forall_forall in Hl. by apply (Hl (col, _)).
  - unfold enhanced. apply Forall_fmap, Forall_forall. intros x _. by exists x.
Qed.

(** ** What stays inside the [try] of the application *)

Lemma contained_ret {A} (a : A) : contained (ret a).
Proof. intros w r w' [= <- <-]. split; [done|]. intros e [=]. Qed.

Lemma contained_raise {A} msg : contained (raise (A := A) (PyException msg)).
Proof. intros w r w' [= <- <-]. split; [done|]. intros e [= <-]. by exists msg. Qed.

Lemma contained_bind {A B} (m : M A) (k : A -> M B) :
  contained m -> (forall a, contained (k a)) -> contained (bind m k).
Proof.
  intros Hm Hk w r w' Hrun. unfold bind in Hrun.
  destruct (m w) as [[a|e] w1] eqn:E; destruct (Hm _ _ _ E) as [Ha He].
  - destruct (Hk a _ _ _ Hrun) as [Ha' He']. split; [congruence | done].
  - injection Hrun as <- <-. split; [done|]. intros e0 [= <-]. by apply He.
Qed.

Lemma contained_try_except {A} (body : M A) handler :
  contained body -> (forall msg, contained (handler msg)) ->
  contained (try_except body handler).
Proof.
  intros Hb Hh w r w' Hrun. unfold try_except in Hrun.
  destruct (body w) as [[a|e] w1] eqn:E; destruct (Hb _ _ _ E) as [Ha He].
  - by injection Hrun as <- <-.
  - destruct (He e eq_refl) as [msg ->].
    destruct (Hh msg _ _ _ Hrun) as [Ha' He']. split; [congruence | done].
Qed.

Lemma contained_for_each {A} (xs : list A) body :
  (forall x, contained (body x)) -> contained (for_each xs body).
Proof.
  intros Hb. induction xs as [|x xs IH]; simpl.
  - apply contained_ret.
  - apply contained_bind; [apply Hb | by intros _].
Qed.

Lemma contained_lift {A} (r : string + A) : contained (lift r).
Proof. destruct r; [apply contained_raise | apply contained_ret]. Qed.

Lemma contained_emit ev : contained (emit ev).
Proof. intros w r w' [= <- <-]. split; [done|]. intros e [=]. Qed.

Lemma contained_np_random_normal loc scale n :
  contained (np_random_normal loc scale n).
Proof.
  intros w r w'. unfold np_random_normal.
  destruct (normal loc scale n (np_random w)) as [xs g].
  intros [= <- <-]. split; [done|]. intros e [=].
Qed.

Lemma contained_datetime_now : contained datetime_now.
Proof. intros w r w' [= <- <-]. split; [done|]. intros e [=]. Qed.

Lemma contained_new_frame df : contained (new_frame df).
Proof. intros w r w' [= <- <-]. split; [done|]. intros e [=]. Qed.

Lemma contained_load l : contained (load l).
Proof.
  intros w r w'. unfold load. destruct (heap w !! l).
  - intros [= <- <-]. split; [done|]. intros e [=].
  - intros [= <- <-]. split; [done|]. intros e [= <-]. by eexists.
Qed.

Lemma contained_store l df : contained (store l df).
Proof. intros w r w' [= <- <-]. split; [done|]. intros e [=]. Qed.

Ltac contain :=
  repeat first
    [ apply contained_ret | apply contained_raise | apply contained_lift
    | apply contained_emit | apply contained_np_random_normal
    | apply contained_datetime_now | apply contained_new_frame
    | apply contained_load | apply contained_store
    | apply contained_bind; [|intros ?]
    | apply contained_try_except; [|intros ?]
    | apply contained_for_each; intros ?
    | match goal with
      | |- contained (match ?x with _ => _ end) => destruct x
      end ].

Lemma contained_demo_enhance_signals df bf lo hi :
  contained (demo_enhance_signals df bf lo hi).
Proof.
  unfold demo_enhance_signals, df_copy, df_get_columns, enhance_try,
    enhance_except, df_getitem, df_setitem, df_setitem_series.
  contain.
Qed.

Lemma contained_add_watermark df : contained (add_watermark df).
Proof. unfold add_watermark, df_insert0. contain. Qed.

Lemma contained_limit_rows df : contained (limit_rows df).
Proof. unfold limit_rows, df_len, df_head. contain. Qed.

Lemma contained_process_demo ui df : contained (process_demo ui df).
Proof.
  unfold process_demo. apply contained_bind; [apply contained_demo_enhance_signals|].
  intros e. apply contained_bind; [apply contained_add_watermark|].
  intros [e' marker]. unfold df_head. contain.
Qed.

(** ** Further properties of the access check *)

Lemma check_auth_idle ui w :
  authenticated w ≠ Some true -> access_clicked ui = false ->
  check_auth ui w =
    (Raise StopException,
     mkWorld (Some false) (np_random w) (clock w) (page w) (heap w)).
Proof.
  intros Ha Hclick.
  unfold check_auth, bind, session_get, session_set, emit, ret, raise.
  rewrite Hclick. cbv beta.
  destruct w as [[[|]|] g c p h]; [done|reflexivity|reflexivity].
Qed.

(** The two ways out of the access check of a session that is not
    authenticated. *)
Lemma check_auth_locked ui w :
  authenticated w ≠ Some true ->
  exists e a pg,
    check_auth ui w =
      (Raise e,
       mkWorld (Some a) (np_random w) (clock w) (page w ++ pg) (heap w)) /\
    (e = StopException \/ e = RerunException) /\
    (pg = [] \/ pg = [st_error "Invalid access code"]).
Proof.
  intros Ha. destruct (access_clicked ui) eqn:Hclick.
  - destruct (decide (access_code ui = "Demo2025")) as [Hcode|Hcode].
    + exists RerunException, true, []. rewrite app_nil_r.
      split; [by apply check_auth_accept|]. split; [by right | by left].
    + exists StopException, false, [st_error "Invalid access code"].
      split; [by apply check_auth_reject|]. split; [by left | by right].
  - exists StopException, false, []. rewrite app_nil_r.
    split; [by apply check_auth_idle|]. split; [by left | by left].
Qed.

(** The access check never returns [False]: when it returns at all it
    returns [True], the session was authenticated before the call, and
    nothing has changed.  The early [return] of line 99 is never taken. *)
Theorem check_auth_returns_only_true ui w r w' :
  check_auth ui w = (Ok r, w') ->
  r = true /\ authenticated w = Some true /\ w' = w.
Proof.
  intros Hrun.
  destruct (decide (authenticated w = Some true)) as [Ha|Ha].
  - rewrite check_auth_passes in Hrun by done. by injection Hrun as <- <-.
  - destruct (check_auth_locked ui w Ha) as (e & a & pg & Hlocked & _).
    rewrite Hlocked in Hrun. discriminate Hrun.
Qed.

(** The flag outlives the run that set it: after the right code the next
    run of the check returns [True] whatever the widgets hold, and leaves
    the state alone. *)
Theorem accepted_session_stays_open ui ui' w :
  authenticated w ≠ Some true -> access_clicked ui = true ->
  access_code ui = "Demo2025" ->
  (check_auth ui w).1 = Raise RerunException /\
  check_auth ui' (check_auth ui w).2 = (Ok true, (check_auth ui w).2).
Proof.
  intros Ha Hclick Hcode. rewrite check_auth_accept by done. simpl.
  split; [done|]. by apply check_auth_passes.
Qed.

(** ** Further properties of the application *)

(** The gate: in a session that is not authenticated [main] ends in
    [st.stop()] or [st.rerun()] before it looks at the upload; frames,
    generator and clock are as they were and the page gains at most the
    verdict on the code. *)
Theorem main_gate ui w :
  authenticated w ≠ Some true ->
  exists e w',
    main ui w = (Raise e, w') /\
    (e = StopException \/ e = RerunException) /\
    heap w' = heap w /\ np_random w' = np_random w /\ clock w' = clock w /\
    (page w' = page w \/ page w' = page w ++ [st_error "Invalid access code"]).
Proof.
  intros Ha.
  destruct (check_auth_locked ui w Ha) as (e & a & pg & Hrun & He & Hpg).
  eexists e, _. split.
  { unfold main. apply bind_raise. exact Hrun. }
  split; [done|]. simpl. split; [done|]. split; [done|]. split; [done|].
  destruct Hpg as [->| ->]; [left; apply app_nil_r | by right].
Qed.

(** In an authenticated session [main] always returns: whatever the
    upload is and whatever the libraries raise, no exception leaves it,
    the run is neither stopped nor restarted, and the session stays
    authenticated. *)
Theorem main_returns ui w :
  authenticated w = Some true ->
  exists w', main ui w = (Ok tt, w') /\ authenticated w' = Some true.
Proof.
  intros Ha. unfold main.
  erewrite bind_ok by (by apply check_auth_passes). simpl.
  destruct (uploaded_file ui) as [file|]; [|by exists w].
  destruct (MAX_FILE_SIZE <? size file)%Z; [by eexists|].
  match goal with |- context [try_except ?b ?h] =>
    assert (Hbody : contained b)
  end.
  { apply contained_bind; [apply contained_lift|]. intros parsed.
    apply contained_bind; [apply contained_new_frame|]. intros df.
    apply contained_bind; [apply contained_limit_rows|]. intros df'.
    destruct (process_clicked ui);
      [apply contained_process_demo | apply contained_ret]. }
  unfold try_except.
  match goal with |- context [match ?b w with _ => _ end] =>
    destruct (b w) as [[[]|e] w1] eqn:E; destruct (Hbody _ _ _ E) as [Ha1 He1]
  end.
  - exists w1. split; [done | congruence].
  - destruct (He1 e eq_refl) as [msg ->]. eexists. split; [reflexivity|].
    simpl. congruence.
Qed.

(** ** The row limit and the watermark, further *)

Lemma wf_head n f : wf_frame f -> wf_frame (head n f).
Proof.
  intros [Hnd Hlen]. split; [by rewrite df_columns_head|].
  unfold head. simpl. apply Forall_fmap.
  eapply Forall_impl; [exact Hlen|]. intros [m c] Hc. simpl in *.
  rewrite length_take. lia.
Qed.

Lemma limit_rows_run df w f :
  heap w !! df = Some f ->
  limit_rows df w =
    if MAX_ROWS <? index_len f
    then (Ok (length (heap w)),
          mkWorld (authenticated w) (np_random w) (clock w)
                  (page w ++ [st_warning "Demo limited to first 500 rows"])
                  (heap w ++ [head MAX_ROWS f]))
    else (Ok df, w).
Proof.
  intros Hdf. unfold limit_rows.
  erewrite bind_ok; cycle 1.
  { unfold df_len. erewrite bind_ok by (by apply load_ok). reflexivity. }
  destruct (MAX_ROWS <? index_len f); [|reflexivity].
  erewrite bind_ok; cycle 1.
  { unfold df_head. erewrite bind_ok by (by apply load_ok). reflexivity. }
  reflexivity.
Qed.

(** After the row limit the frame the application holds has at most
    [MAX_ROWS] rows and the labels of the upload, it is well formed when
    the upload is, and the frame that was read is still there as it was. *)
Theorem row_limit_invariant df w f :
  heap w !! df = Some f ->
  exists df' w' f',
    limit_rows df w = (Ok df', w') /\
    heap w' !! df' = Some f' /\
    index_len f' = MAX_ROWS `min` index_len f /\
    index_len f' <= MAX_ROWS /\
    df_columns f' = df_columns f /\
    (wf_frame f -> wf_frame f') /\
    heap w' !! df = Some f.
Proof.
  intros Hdf. rewrite (limit_rows_run df w f Hdf).
  destruct (Nat.ltb_spec MAX_ROWS (index_len f)) as [Hlong|Hshort].
  - eexists _, _, (head MAX_ROWS f). split; [reflexivity|]. cbn [heap].
    split; [apply heap_lookup_last|]. split; [done|].
    split; [unfold head; cbn [index_len]; lia|].
    split; [apply df_columns_head|]. split; [apply wf_head|].
    by apply heap_lookup_old.
  - exists df, w, f. split; [done|]. split; [done|]. split; [lia|].
    split; [done|]. done.
Qed.

(** The row limit applied to its own result does nothing: the same frame
    comes back and no second warning is shown. *)
Theorem row_limit_idempotent df w f df' w' :
  heap w !! df = Some f ->
  limit_rows df w = (Ok df', w') ->
  limit_rows df' w' = (Ok df', w').
Proof.
  intros Hdf Hrun. rewrite (limit_rows_run df w f Hdf) in Hrun.
  destruct (Nat.ltb_spec MAX_ROWS (index_len f)) as [Hlong|Hshort].
  - injection Hrun as <- <-.
    rewrite (limit_rows_run _ _ (head MAX_ROWS f)) by apply heap_lookup_last.
    unfold head at 1. cbn [index_len].
    by destruct (Nat.ltb_spec MAX_ROWS (MAX_ROWS `min` index_len f)); [lia|].
  - injection Hrun as <- <-. rewrite (limit_rows_run df w f Hdf).
    by destruct (Nat.ltb_spec MAX_ROWS (index_len f)); [lia|].
Qed.

Lemma wf_stamped_with marker f :
  wf_frame f -> "DEMO_WATERMARK" ∉ df_columns f -> wf_frame (stamped_with marker f).
Proof.
  intros [Hnd Hlen] Hfresh. split.
  - unfold df_columns, stamped_with. simpl. by apply NoDup_cons.
  - unfold stamped_with. simpl. constructor; [|done].
    simpl. apply length_replicate.
Qed.

(** The watermark keeps a frame well formed and its row count, whether the
    stamp succeeds or raises. *)
Theorem watermark_keeps_frame_well_formed df w f r w' :
  heap w !! df = Some f -> wf_frame f ->
  add_watermark df w = (r, w') ->
  exists f', heap w' !! df = Some f' /\ wf_frame f' /\
             index_len f' = index_len f.
Proof.
  intros Hdf Hwf Hrun.
  destruct (decide ("DEMO_WATERMARK" ∈ df_columns f)) as [Htaken|Hfresh].
  - rewrite (add_watermark_taken _ _ _ Hdf Htaken) in Hrun.
    injection Hrun as <- <-. by exists f.
  - rewrite (add_watermark_fresh _ _ _ Hdf Hfresh) in Hrun.
    injection Hrun as <- <-. eexists. simpl.
    split; [apply list_lookup_insert_eq; by eapply lookup_lt_Some|].
    split; [by apply wf_stamped_with | done].
Qed.

(** The stamp cannot be applied twice: on the frame a first stamp returned
    the second one raises, and the frame keeps its single watermark
    column. *)
Theorem watermark_twice_raises df w f marker w1 :
  heap w !! df = Some f ->
  add_watermark df w = (Ok (df, marker), w1) ->
  exists w2,
    add_watermark df w1 =
      (Raise (PyException "cannot insert DEMO_WATERMARK, already exists"), w2) /\
    heap w2 = heap w1 /\
    heap w1 !! df = Some (stamped_with marker f).
Proof.
  intros Hdf Hrun.
  destruct (decide ("DEMO_WATERMARK" ∈ df_columns f)) as [Htaken|Hfresh].
  - rewrite (add_watermark_taken _ _ _ Hdf Htaken) in Hrun. discriminate Hrun.
  - rewrite (add_watermark_fresh _ _ _ Hdf Hfresh) in Hrun.
    injection Hrun as <- <-.
    assert (Hst : forall m, (<[df := stamped_with m f]> (heap w)) !! df
                            = Some (stamped_with m f)).
    { intros m. apply list_lookup_insert_eq. by eapply lookup_lt_Some. }
    eexists (tick _). split; [|split; [reflexivity | apply Hst]].
    eapply add_watermark_taken; [apply Hst|]. apply list_elem_of_here.
Qed.

(** ** The whole pipeline *)

Lemma df_head_run l n w f :
  heap w !! l = Some f ->
  df_head l n w =
    (Ok (length (heap w)),
     mkWorld (authenticated w) (np_random w) (clock w) (page w)
             (heap w ++ [head n f])).
Proof.
  intros Hl. unfold df_head. erewrite bind_ok by (by apply load_ok). reflexivity.
Qed.

(** What the button runs, on a frame of the heap that is well formed. *)
Lemma process_demo_run ui df w f :
  heap w !! df = Some f -> wf_frame f ->
  let lo := lowcut ui in
  let hi := highcut ui in
  let signal_cols := filter is_signal_col (df_columns f) in
  let errors := error_for <$> failing_columns lo hi f signal_cols in
  let marker := WATERMARK_TEXT (strftime_seconds (clock w 0)) in
  exists out,
    same_shape f out /\
    (forall c, ~ is_signal_col c -> getitem out c = getitem f c) /\
    process_demo ui df w =
      if bool_decide ("DEMO_WATERMARK" ∈ df_columns f) then
        (Raise (PyException "cannot insert DEMO_WATERMARK, already exists"),
         mkWorld (authenticated w)
                 (draws_after (boost ui) lo hi f signal_cols (np_random w))
                 (fun i => clock w (S i))
                 (page w ++ errors)
                 (heap w ++ [out]))
      else
        (Ok tt,
         mkWorld (authenticated w)
                 (draws_after (boost ui) lo hi f signal_cols (np_random w))
                 (fun i => clock w (S (S i)))
                 (page w ++ errors ++
                    [st_success "Demo processing complete!";
                     st_info ("**Watermark:** " +:+ marker);
                     st_dataframe (head 5 f);
                     st_dataframe (head 5 (stamped_with marker out));
                     st_download_button (to_csv (stamped_with marker out))
                       ("demo_signal_enhancement_"
                          +:+ strftime_date (clock w 1) +:+ ".csv")
                       "text/csv"])
                 (heap w ++ [stamped_with marker out; head 5 f;
                             head 5 (stamped_with marker out)])).
Proof.
  intros Hdf Hwf lo hi signal_cols errors marker.
  destruct (demo_enhance_signals_exact df (boost ui) lo hi w f Hdf Hwf)
    as (out & Hrun & Hs & Hkeep & _).
  exists out. split; [done|]. split; [done|].
  unfold process_demo. erewrite bind_ok by exact Hrun.
  fold signal_cols. fold errors.
  set (w1 := mkWorld (authenticated w) _ (clock w) (page w ++ errors) (heap w ++ [out])).
  assert (He : heap w1 !! length (heap w) = Some out) by apply heap_lookup_last.
  destruct Hs as (_ & Hcols & _).
  case_bool_decide as Htaken.
  - apply bind_raise.
    rewrite (add_watermark_taken _ w1 out He) by (by rewrite Hcols). reflexivity.
  - erewrite bind_ok; cycle 1.
    { apply (add_watermark_fresh _ w1 out He). by rewrite Hcols. }
    cbn [heap clock authenticated np_random page w1].
    rewrite heap_store_last. fold marker.
    erewrite bind_ok by reflexivity.
    erewrite bind_ok by reflexivity.
    erewrite bind_ok; cycle 1.
    { apply df_head_run. cbn [heap]. by apply heap_lookup_old. }
    erewrite bind_ok; cycle 1.
    { apply load_ok. cbn [heap]. apply heap_lookup_last. }
    erewrite bind_ok by reflexivity.
    erewrite bind_ok; cycle 1.
    { apply df_head_run. cbn [heap]. rewrite <- app_assoc.
      by apply list_lookup_middle. }
    erewrite bind_ok; cycle 1.
    { apply load_ok. cbn [heap]. apply heap_lookup_last. }
    erewrite bind_ok by reflexivity.
    erewrite bind_ok; cycle 1.
    { apply load_ok. cbn [heap]. rewrite <- !app_assoc.
      by apply list_lookup_middle. }
    erewrite bind_ok by reflexivity.
    unfold emit. cbn [heap clock authenticated np_random page].
    f_equal. f_equal.
    + by rewrite <- !app_assoc.
    + by rewrite <- !app_assoc.
Qed.

Lemma limited_columns f : df_columns (limited f) = df_columns f.
Proof. unfold limited. destruct (MAX_ROWS <? index_len f); [apply df_columns_head | done]. Qed.

Lemma limited_wf f : wf_frame f -> wf_frame (limited f).
Proof. unfold limited. destruct (MAX_ROWS <? index_len f); [apply wf_head | done]. Qed.

Lemma limited_rows f : index_len (limited f) = MAX_ROWS `min` index_len f.
Proof.
  unfold limited. destruct (Nat.ltb_spec MAX_ROWS (index_len f)); [done | lia].
Qed.

(** The run of [main] up to the button, for an upload that parses. *)
Lemma main_reaches_process ui w file parsed :
  authenticated w = Some true -> uploaded_file ui = Some file ->
  (size file <= MAX_FILE_SIZE)%Z ->
  read_csv (content file) = inr parsed -> process_clicked ui = true ->
  exists df w0,
    heap w0 !! df = Some (limited parsed) /\
    authenticated w0 = authenticated w /\ np_random w0 = np_random w /\
    clock w0 = clock w /\
    page w0 = page w ++
      (if MAX_ROWS <? index_len parsed
       then [st_warning "Demo limited to first 500 rows"] else []) /\
    main ui w =
      try_except (process_demo ui df)
        (fun msg => emit (st_error ("Demo error: " +:+ msg))) w0.
Proof.
  intros Ha Hfile Hsize Hparse Hclick.
  set (w1 := mkWorld (authenticated w) (np_random w) (clock w) (page w)
                     (heap w ++ [parsed])).
  pose proof (limit_rows_run (length (heap w)) w1 parsed (heap_lookup_last _ _))
    as Hlimit.
  assert (Hmain : forall df w0,
    limit_rows (length (heap w)) w1 = (Ok df, w0) ->
    main ui w = try_except (process_demo ui df)
                  (fun msg => emit (st_error ("Demo error: " +:+ msg))) w0).
  { intros df w0 Hl. unfold main.
    erewrite bind_ok by (by apply check_auth_passes). simpl.
    rewrite Hfile. destruct (Z.ltb_spec MAX_FILE_SIZE (size file)); [lia|].
    unfold try_except.
    erewrite bind_ok by (rewrite Hparse; reflexivity).
    erewrite bind_ok by reflexivity.
    erewrite bind_ok by exact Hl. by rewrite Hclick. }
  unfold limited. destruct (MAX_ROWS <? index_len parsed).
  - eexists _, _. split; [|split; [|split; [|split; [|split; [|by apply Hmain]]]]];
      [apply heap_lookup_last | done..].
  - eexists _, _. split; [|split; [|split; [|split; [|split; [|by apply Hmain]]]]];
      [apply heap_lookup_last | done | done | done |].
    simpl. by rewrite app_nil_r.
Qed.

(** The pipeline, end to end: for an upload within the size limit that
    parses to a well-formed frame without a column DEMO_WATERMARK, a click
    on the button makes [main] return with, on the page in this order, the
    row-limit warning if rows were dropped, one error per failing signal
    column, the success note, the watermark, the first five rows of the
    frame as it was before the enhancer, the first five rows of the
    stamped result, and the download of the stamped result under a name
    that carries the date of the clock's second reading. *)
Theorem main_pipeline ui w file parsed :
  authenticated w = Some true -> uploaded_file ui = Some file ->
  (size file <= MAX_FILE_SIZE)%Z ->
  read_csv (content file) = inr parsed -> wf_frame parsed ->
  "DEMO_WATERMARK" ∉ df_columns parsed ->
  process_clicked ui = true ->
  let f := limited parsed in
  let marker := WATERMARK_TEXT (strftime_seconds (clock w 0)) in
  exists out w',
    main ui w = (Ok tt, w') /\
    df_columns out = df_columns parsed /\
    index_len out = MAX_ROWS `min` index_len parsed /\
    (forall c, lower c = "time" -> getitem out c = getitem f c) /\
    page w' = page w ++
      (if MAX_ROWS <? index_len parsed
       then [st_warning "Demo limited to first 500 rows"] else []) ++
      ((fun c => st_error ("Demo processing error for " +:+ c)) <$>
         filter (fun c => column_fails (lowcut ui) (highcut ui) (column_of f c))
           (filter is_signal_col (df_columns parsed))) ++
      [st_success "Demo processing complete!";
       st_info ("**Watermark:** " +:+ marker);
       st_dataframe (head 5 f);
       st_dataframe (head 5 (stamped_with marker out));
       st_download_button (to_csv (stamped_with marker out))
         ("demo_signal_enhancement_" +:+ strftime_date (clock w 1) +:+ ".csv")
         "text/csv"].
Proof.
  intros Ha Hfile Hsize Hparse Hwf Hfresh Hclick f marker.
  destruct (main_reaches_process ui w file parsed Ha Hfile Hsize Hparse Hclick)
    as (df & w0 & Hdf & Ha0 & Hg0 & Hc0 & Hp0 & Hmain).
  destruct (process_demo_run ui df w0 _ Hdf (limited_wf _ Hwf))
    as (out & (Hn & Hcols & _) & Hkeep & Hrun).
  rewrite bool_decide_eq_false_2 in Hrun by (by rewrite limited_columns).
  rewrite limited_columns in Hrun, Hcols.
  exists out. eexists. split.
  { rewrite Hmain. erewrite try_except_ok by exact Hrun. reflexivity. }
  split; [done|]. split; [by rewrite Hn, limited_rows|].
  split; [intros c Hc; apply Hkeep; unfold is_signal_col; by intros H|].
  cbn [page]. rewrite Hp0, Hc0, <- !app_assoc. reflexivity.
Qed.

(** A download of the demo cannot be put through the demo again: for an
    upload whose frame already has a column DEMO_WATERMARK the enhancer
    still runs, then the stamp raises and the run ends with that error;
    nothing is offered for download. *)
Theorem main_refuses_stamped_upload ui w file parsed :
  authenticated w = Some true -> uploaded_file ui = Some file ->
  (size file <= MAX_FILE_SIZE)%Z ->
  read_csv (content file) = inr parsed -> wf_frame parsed ->
  "DEMO_WATERMARK" ∈ df_columns parsed ->
  process_clicked ui = true ->
  exists w',
    main ui w = (Ok tt, w') /\
    page w' = page w ++
      (if MAX_ROWS <? index_len parsed
       then [st_warning "Demo limited to first 500 rows"] else []) ++
      ((fun c => st_error ("Demo processing error for " +:+ c)) <$>
         filter (fun c => column_fails (lowcut ui) (highcut ui)
                            (column_of (limited parsed) c))
           (filter is_signal_col (df_columns parsed))) ++
      [st_error "Demo error: cannot insert DEMO_WATERMARK, already exists"].
Proof.
  intros Ha Hfile Hsize Hparse Hwf Htaken Hclick.
  destruct (main_reaches_process ui w file parsed Ha Hfile Hsize Hparse Hclick)
    as (df & w0 & Hdf & Ha0 & Hg0 & Hc0 & Hp0 & Hmain).
  destruct (process_demo_run ui df w0 _ Hdf (limited_wf _ Hwf))
    as (out & _ & _ & Hrun).
  rewrite bool_decide_eq_true_2 in Hrun by (by rewrite limited_columns).
  rewrite limited_columns in Hrun.
  eexists. split.
  { rewrite Hmain. erewrite try_except_caught by exact Hrun. reflexivity. }
  cbn [page]. rewrite Hp0, <- !app_assoc. reflexivity.
Qed.

End Script.

(** * The script on sample data *)

Lemma fixture_numbers_length x xs :
  Fixture.numbers x = Some xs -> length xs = length x.
Proof.
  revert xs. induction x as [|[v|s] x IH]; intros xs; simpl.
  - by intros [= <-].
  - destruct (Fixture.numbers x) as [ys|]; simpl; [|done].
    intros [= <-]. simpl. f_equal. by apply IH.
  - done.
Qed.

Lemma fixture_filtfilt_length ba x y :
  Fixture.filtfilt ba x = inr y -> length y = length x.
Proof.
  unfold Fixture.filtfilt.
  destruct (Fixture.numbers x) as [xs|] eqn:E; [|done].
  destruct (length xs <=? 27); [done|].
  intros [= <-]. rewrite length_fmap. by apply fixture_numbers_length.
Qed.

Local Abbreviation sample_world a h :=
  (mkWorld Fixture.rng a Fixture.tape Fixture.at_noon [] h).
Local Abbreviation enhance :=
  (demo_enhance_signals Fixture.rng Fixture.gauss Fixture.coeffs Fixture.butter
     Fixture.filtfilt Fixture.np_std).
Local Abbreviation run_main :=
  (main Fixture.rng Fixture.gauss Fixture.coeffs Fixture.butter
     Fixture.filtfilt Fixture.np_std Fixture.read_csv Fixture.to_csv).

Lemma wf_recording_30 : wf_frame (Fixture.recording 30).
Proof. apply (bool_decide_unpack _). vm_compute. exact I. Qed.

Lemma wf_recording_501 : wf_frame (Fixture.recording 501).
Proof. apply (bool_decide_unpack _). vm_compute. exact I. Qed.

Lemma ch1_is_signal_col : is_signal_col "ch1".
Proof. unfold is_signal_col. vm_compute. discriminate. Qed.

(** The channel "ch1" of a recording of 30 rows goes through filter, boost
    and noise. *)
Lemma C1_enhanced_values_witness :
  exists filtered e w' out g,
    Fixture.filtfilt (0.0078125, 0.3125)%float
      ((fun i => CNum (Fixture.float_of_nat (i * i `mod` 7))) <$> seq 0 30)
      = inr filtered /\
    enhance 0 1.5%float 1%float 40%float
      (sample_world (Some true) [Fixture.recording 30]) = (Ok e, w') /\
    heap _ w' !! e = Some out /\
    let boosted := (fun x => (x * 1.5)%float) <$> filtered in
    let noise :=
      (normal _ Fixture.gauss 0 (0.03 * Fixture.np_std boosted)
         (length boosted) g).1 in
    length noise = length boosted /\
    getitem out "ch1" = Some (CNum <$> zip_with PrimFloat.add boosted noise).
Proof.
  eexists.
  edestruct (C1_enhanced_values Fixture.rng Fixture.gauss Fixture.coeffs
               Fixture.butter Fixture.filtfilt Fixture.np_std
               fixture_filtfilt_length
               0 1.5%float 1%float 40%float
               (sample_world (Some true) [Fixture.recording 30])
               (Fixture.recording 30) "ch1")
    as (e & w' & out & g & Hrun & Hout & Hcol).
  - reflexivity.
  - exact wf_recording_30.
  - exact ch1_is_signal_col.
  - reflexivity.
  - rewrite length_fmap, length_seq. unfold MAX_ROWS. lia.
  - vm_compute. reflexivity.
  - vm_compute. reflexivity.
  - exists e, w', out, g. split; [vm_compute; reflexivity|].
    split; [exact Hrun|]. split; [exact Hout|]. exact Hcol.
Defined.

(** In a recording of 30 rows the text column "note" fails and keeps its
    values; the channels are transformed. *)
Lemma C2_column_isolation_witness :
  exists e w' out,
    enhance 0 1.5%float 1%float 40%float
      (sample_world (Some true) [Fixture.recording 30]) = (Ok e, w') /\
    heap _ w' !! e = Some out /\
    forall col v,
      is_signal_col col -> getitem (Fixture.recording 30) col = Some v ->
      (column_fails _ Fixture.butter Fixture.filtfilt 1 40 v ->
         getitem out col = Some v /\
         st_error ("Demo processing error for " +:+ col) ∈ page _ w') /\
      (~ column_fails _ Fixture.butter Fixture.filtfilt 1 40 v ->
         exists filtered g,
           basic_bandpass_filter _ Fixture.butter Fixture.filtfilt v 1 40 256
             = inr filtered /\
           getitem out col
             = Some (enhanced _ Fixture.gauss Fixture.np_std 1.5 filtered g)).
Proof.
  apply (C2_column_isolation Fixture.rng Fixture.gauss Fixture.coeffs
           Fixture.butter Fixture.filtfilt Fixture.np_std
           fixture_filtfilt_length 0 1.5%float 1%float 40%float
           (sample_world (Some true) [Fixture.recording 30])
           (Fixture.recording 30)).
  - reflexivity.
  - exact wf_recording_30.
Defined.

Lemma C3_shape_preserved_witness :
  exists e w' out,
    enhance 0 1.5%float 1%float 40%float
      (sample_world (Some true) [Fixture.recording 30]) = (Ok e, w') /\
    heap _ w' !! e = Some out /\
    df_columns out = df_columns (Fixture.recording 30) /\
    index_len out = index_len (Fixture.recording 30) /\
    wf_frame out /\
    forall col, lower col = "time" ->
                getitem out col = getitem (Fixture.recording 30) col.
Proof.
  apply (C3_shape_preserved Fixture.rng Fixture.gauss Fixture.coeffs
           Fixture.butter Fixture.filtfilt Fixture.np_std
           fixture_filtfilt_length 0 1.5%float 1%float 40%float
           (sample_world (Some true) [Fixture.recording 30])
           (Fixture.recording 30)).
  - reflexivity.
  - exact wf_recording_30.
Defined.

(** C4 as the specification states it fails at the watermark: the frame
    that is passed in is the frame that comes back, and it has changed. *)
Lemma C4_watermark_changes_its_input :
  exists marker w',
    add_watermark Fixture.rng 0 (sample_world (Some true) [Fixture.recording 30])
      = (Ok (0, marker), w') /\
    df_columns <$> [Fixture.recording 30] !! 0
      = Some ["Time"; "ch1"; "note"; "ch2"] /\
    df_columns <$> heap _ w' !! 0
      = Some ["DEMO_WATERMARK"; "Time"; "ch1"; "note"; "ch2"] /\
    heap _ w' !! 0 ≠ [Fixture.recording 30] !! 0.
Proof.
  eexists _, _. split; [vm_compute; reflexivity|]. split; [reflexivity|].
  split; [reflexivity|].
  intros H. apply (f_equal (fmap df_columns)) in H. vm_compute in H.
  discriminate H.
Qed.

Lemma C4_original_kept_witness :
  exists e w1,
    enhance 0 1.5%float 1%float 40%float
      (sample_world (Some true) [Fixture.recording 30]) = (Ok e, w1) /\
    e ≠ 0 /\
    (forall l x, [Fixture.recording 30] !! l = Some x -> heap _ w1 !! l = Some x) /\
    forall r w2,
      add_watermark _ e w1 = (r, w2) ->
      heap _ w2 !! 0 = Some (Fixture.recording 30) /\
      (forall l x, l ≠ e -> heap _ w1 !! l = Some x -> heap _ w2 !! l = Some x) /\
      (forall e' marker, r = Ok (e', marker) ->
         e' = e /\
         exists out, heap _ w1 !! e = Some out /\
                     heap _ w2 !! e = Some (stamped_with marker out)).
Proof.
  apply (C4_original_kept Fixture.rng Fixture.gauss Fixture.coeffs
           Fixture.butter Fixture.filtfilt Fixture.np_std
           fixture_filtfilt_length 0 1.5%float 1%float 40%float
           (sample_world (Some true) [Fixture.recording 30])
           (Fixture.recording 30)).
  - reflexivity.
  - exact wf_recording_30.
Defined.

Lemma C5_access_check_witness :
  (authenticated _
     (check_auth Fixture.rng
        (mkWidgets "demo2025" true None 1.5 1 40 false)
        (sample_world None [])).2 = Some true
   <-> "demo2025" = "Demo2025") /\
  ("demo2025" ≠ "Demo2025" ->
     authenticated _
       (check_auth Fixture.rng
          (mkWidgets "demo2025" true None 1.5 1 40 false)
          (sample_world None [])).2 = Some false /\
     (check_auth Fixture.rng
        (mkWidgets "demo2025" true None 1.5 1 40 false)
        (sample_world None [])).1 = Raise StopException /\
     page _
       (check_auth Fixture.rng
          (mkWidgets "demo2025" true None 1.5 1 40 false)
          (sample_world None [])).2 = [] ++ [st_error "Invalid access code"]).
Proof.
  apply (C5_access_check Fixture.rng
           (mkWidgets "demo2025" true None 1.5 1 40 false)
           (sample_world None [])).
  - simpl. discriminate.
  - reflexivity.
Defined.

Lemma C6_row_limit_witness :
  (MAX_ROWS < index_len (Fixture.recording 501) ->
     exists df' w',
       limit_rows Fixture.rng 0 (sample_world (Some true) [Fixture.recording 501])
         = (Ok df', w') /\
       heap _ w' !! df' = Some (head MAX_ROWS (Fixture.recording 501)) /\
       index_len (head MAX_ROWS (Fixture.recording 501)) = MAX_ROWS /\
       df_columns (head MAX_ROWS (Fixture.recording 501))
         = df_columns (Fixture.recording 501) /\
       (forall col, getitem (head MAX_ROWS (Fixture.recording 501)) col
                    = take MAX_ROWS <$> getitem (Fixture.recording 501) col) /\
       page _ w' = [] ++ [st_warning "Demo limited to first 500 rows"]) /\
  (index_len (Fixture.recording 501) <= MAX_ROWS ->
     limit_rows Fixture.rng 0 (sample_world (Some true) [Fixture.recording 501])
       = (Ok 0, sample_world (Some true) [Fixture.recording 501])).
Proof.
  apply (C6_row_limit Fixture.rng 0
           (sample_world (Some true) [Fixture.recording 501])
           (Fixture.recording 501)).
  reflexivity.
Defined.

Lemma C7_size_ceiling_witness :
  ((MAX_FILE_SIZE < 3000000)%Z ->
     run_main
       (mkWidgets "" false (Some (mkUploadedFile 3000000 "recording-30")) 1.5 1 40 true)
       (sample_world (Some true) [])
     = (Ok tt, mkWorld Fixture.rng (Some true) Fixture.tape Fixture.at_noon
                 ([] ++ [st_error "File too large for demo. Max: 2.0MB"]) [])) /\
  ((3000000 <= MAX_FILE_SIZE)%Z ->
     forall msg, Fixture.read_csv "recording-30" = inl msg ->
     run_main
       (mkWidgets "" false (Some (mkUploadedFile 3000000 "recording-30")) 1.5 1 40 true)
       (sample_world (Some true) [])
     = (Ok tt, mkWorld Fixture.rng (Some true) Fixture.tape Fixture.at_noon
                 ([] ++ [st_error ("Demo error: " +:+ msg)]) [])).
Proof.
  apply (C7_size_ceiling Fixture.rng Fixture.gauss Fixture.coeffs
           Fixture.butter Fixture.filtfilt Fixture.np_std
           Fixture.read_csv Fixture.to_csv
           (mkWidgets "" false (Some (mkUploadedFile 3000000 "recording-30")) 1.5 1 40 true)
           (sample_world (Some true) [])
           (mkUploadedFile 3000000 "recording-30")).
  - reflexivity.
  - reflexivity.
Defined.

(** C8 as the specification states it fails on a frame that carries the
    column already, such as a download of the demo uploaded again: the
    stamp raises and returns no frame. *)
Lemma C8_stamped_frame_refused :
  (add_watermark Fixture.rng 0 (sample_world (Some true) [Fixture.stamped 30])).1
    = Raise (PyException "cannot insert DEMO_WATERMARK, already exists") /\
  heap _ (add_watermark Fixture.rng 0
            (sample_world (Some true) [Fixture.stamped 30])).2
    = [Fixture.stamped 30].
Proof. split; reflexivity. Qed.

Lemma C8_watermark_witness :
  ("DEMO_WATERMARK" ∉ df_columns (Fixture.recording 30) ->
     exists w',
       add_watermark Fixture.rng 0 (sample_world (Some true) [Fixture.recording 30])
         = (Ok (0, WATERMARK_TEXT (strftime_seconds (Fixture.at_noon 0))), w') /\
       heap _ w' !! 0
         = Some (stamped_with (WATERMARK_TEXT (strftime_seconds (Fixture.at_noon 0)))
                   (Fixture.recording 30)) /\
       df_columns (stamped_with (WATERMARK_TEXT (strftime_seconds (Fixture.at_noon 0)))
                     (Fixture.recording 30))
         = "DEMO_WATERMARK" :: df_columns (Fixture.recording 30) /\
       index_len (stamped_with (WATERMARK_TEXT (strftime_seconds (Fixture.at_noon 0)))
                    (Fixture.recording 30))
         = index_len (Fixture.recording 30) /\
       getitem (stamped_with (WATERMARK_TEXT (strftime_seconds (Fixture.at_noon 0)))
                  (Fixture.recording 30)) "DEMO_WATERMARK"
         = Some (replicate (index_len (Fixture.recording 30))
                   (CStr (WATERMARK_TEXT (strftime_seconds (Fixture.at_noon 0))))) /\
       forall col, col ∈ df_columns (Fixture.recording 30) ->
                   getitem (stamped_with (WATERMARK_TEXT (strftime_seconds (Fixture.at_noon 0)))
                              (Fixture.recording 30)) col
                   = getitem (Fixture.recording 30) col) /\
  ("DEMO_WATERMARK" ∈ df_columns (Fixture.recording 30) ->
     exists w',
       add_watermark Fixture.rng 0 (sample_world (Some true) [Fixture.recording 30])
         = (Raise (PyException "cannot insert DEMO_WATERMARK, already exists"), w') /\
       heap _ w' = [Fixture.recording 30]).
Proof.
  apply (C8_watermark Fixture.rng 0
           (sample_world (Some true) [Fixture.recording 30])
           (Fixture.recording 30)).
  reflexivity.
Defined.

Lemma C9_truncated_window_witness :
  length (take MAX_ROWS (replicate 501 (CStr "n/a"))) = MAX_ROWS /\
  enhance_try Fixture.rng Fixture.gauss Fixture.coeffs Fixture.butter
    Fixture.filtfilt Fixture.np_std 0 1 "note" 1.5 1 40
    (sample_world (Some true) [Fixture.recording 501; Fixture.recording 501]) =
    match basic_bandpass_filter _ Fixture.butter Fixture.filtfilt
            (take MAX_ROWS (replicate 501 (CStr "n/a"))) 1 40 256 with
    | inl msg =>
        (Raise (PyException msg),
         sample_world (Some true) [Fixture.recording 501; Fixture.recording 501])
    | inr filtered =>
        df_setitem _ 1 "note"
          (enhanced _ Fixture.gauss Fixture.np_std 1.5 filtered Fixture.tape)
          (with_rng _
             (sample_world (Some true) [Fixture.recording 501; Fixture.recording 501])
             (drawn _ Fixture.gauss Fixture.np_std 1.5 filtered Fixture.tape))
    end.
Proof.
  apply (C9_truncated_window Fixture.rng Fixture.gauss Fixture.coeffs
           Fixture.butter Fixture.filtfilt Fixture.np_std 0 1 "note"
           1.5%float 1%float 40%float
           (sample_world (Some true) [Fixture.recording 501; Fixture.recording 501])
           (Fixture.recording 501) (replicate 501 (CStr "n/a"))).
  - reflexivity.
  - reflexivity.
  - rewrite length_replicate. unfold MAX_ROWS. lia.
Defined.

Lemma C10_long_frame_unchanged_witness :
  exists e w',
    enhance 0 1.5%float 1%float 40%float
      (sample_world (Some true) [Fixture.recording 501]) = (Ok e, w') /\
    heap _ w' !! e = Some (Fixture.recording 501) /\
    forall col, col ∈ df_columns (Fixture.recording 501) -> is_signal_col col ->
                st_error ("Demo processing error for " +:+ col) ∈ page _ w'.
Proof.
  apply (C10_long_frame_unchanged Fixture.rng Fixture.gauss Fixture.coeffs
           Fixture.butter Fixture.filtfilt Fixture.np_std
           fixture_filtfilt_length 0 1.5%float 1%float 40%float
           (sample_world (Some true) [Fixture.recording 501])
           (Fixture.recording 501)).
  - reflexivity.
  - exact wf_recording_501.
  - unfold MAX_ROWS. simpl. lia.
Defined.

(** ** The further properties on sample data *)

#[local] Existing Instance column_fails_dec.

Local Abbreviation fixture_fails lo hi :=
  (column_fails Fixture.coeffs Fixture.butter Fixture.filtfilt lo hi).

Lemma wf_stamped_30 : wf_frame (Fixture.stamped 30).
Proof. apply (bool_decide_unpack _). vm_compute. exact I. Qed.

Lemma enhancer_error_report_witness :
  exists e w',
    enhance 0 1.5%float 1%float 40%float
      (sample_world (Some true) [Fixture.recording 30]) = (Ok e, w') /\
    page _ w' = [] ++
      ((fun c => st_error ("Demo processing error for " +:+ c)) <$>
         filter (fun c => fixture_fails 1 40 (column_of (Fixture.recording 30) c))
           (filter is_signal_col (df_columns (Fixture.recording 30)))).
Proof.
  apply (enhancer_error_report Fixture.rng Fixture.gauss Fixture.coeffs
           Fixture.butter Fixture.filtfilt Fixture.np_std
           fixture_filtfilt_length 0 1.5%float 1%float 40%float
           (sample_world (Some true) [Fixture.recording 30])
           (Fixture.recording 30)).
  - reflexivity.
  - exact wf_recording_30.
Defined.

Lemma enhancer_draws_witness :
  exists e w',
    enhance 0 1.5%float 1%float 40%float
      (sample_world (Some true) [Fixture.recording 30]) = (Ok e, w') /\
    np_random _ w' =
      draws_after _ Fixture.gauss _ Fixture.butter Fixture.filtfilt
        Fixture.np_std 1.5 1 40 (Fixture.recording 30)
        (filter is_signal_col (df_columns (Fixture.recording 30)))
        Fixture.tape /\
    authenticated _ w' = Some true /\ clock _ w' = Fixture.at_noon.
Proof.
  apply (enhancer_draws Fixture.rng Fixture.gauss Fixture.coeffs
           Fixture.butter Fixture.filtfilt Fixture.np_std
           fixture_filtfilt_length 0 1.5%float 1%float 40%float
           (sample_world (Some true) [Fixture.recording 30])
           (Fixture.recording 30)).
  - reflexivity.
  - exact wf_recording_30.
Defined.

(** A low cut of 20 Hz above a high cut of 10 Hz, as the sliders allow. *)
Lemma enhancer_design_failure_witness :
  enhance 0 1.5%float 20%float 10%float
    (sample_world (Some true) [Fixture.recording 30]) =
    (Ok 1,
     mkWorld Fixture.rng (Some true) Fixture.tape Fixture.at_noon
       ([] ++ ((fun c => st_error ("Demo processing error for " +:+ c)) <$>
                 filter is_signal_col (df_columns (Fixture.recording 30))))
       ([Fixture.recording 30] ++ [Fixture.recording 30])).
Proof.
  eapply (enhancer_design_failure Fixture.rng Fixture.gauss Fixture.coeffs
            Fixture.butter Fixture.filtfilt Fixture.np_std
            fixture_filtfilt_length 0 1.5%float 20%float 10%float
            (sample_world (Some true) [Fixture.recording 30])
            (Fixture.recording 30)).
  - reflexivity.
  - exact wf_recording_30.
  - vm_compute. reflexivity.
Defined.

Lemma enhancer_without_signal_columns_witness :
  enhance 0 1.5%float 1%float 40%float
    (sample_world (Some true)
       [mkDataFrame 2 [("Time", [CNum 0; CNum 1]); ("TIME", [CStr "a"; CStr "b"])]]) =
    (Ok 1,
     mkWorld Fixture.rng (Some true) Fixture.tape Fixture.at_noon []
       ([mkDataFrame 2 [("Time", [CNum 0; CNum 1]); ("TIME", [CStr "a"; CStr "b"])]]
        ++ [mkDataFrame 2 [("Time", [CNum 0; CNum 1]); ("TIME", [CStr "a"; CStr "b"])]])).
Proof.
  apply (enhancer_without_signal_columns Fixture.rng Fixture.gauss Fixture.coeffs
           Fixture.butter Fixture.filtfilt Fixture.np_std
           fixture_filtfilt_length 0 1.5%float 1%float 40%float
           (sample_world (Some true)
              [mkDataFrame 2 [("Time", [CNum 0; CNum 1]); ("TIME", [CStr "a"; CStr "b"])]])
           (mkDataFrame 2 [("Time", [CNum 0; CNum 1]); ("TIME", [CStr "a"; CStr "b"])])).
  - reflexivity.
  - apply (bool_decide_unpack _). vm_compute. exact I.
  - intros c Hc. apply elem_of_cons in Hc as [->|Hc]; [reflexivity|].
    apply elem_of_cons in Hc as [->|Hc]; [reflexivity|].
    by apply elem_of_nil in Hc.
Defined.

Lemma enhancer_writes_numbers_only_witness :
  exists e w' out,
    enhance 0 1.5%float 1%float 40%float
      (sample_world (Some true) [Fixture.recording 30]) = (Ok e, w') /\
    heap _ w' !! e = Some out /\
    forall col v v',
      getitem (Fixture.recording 30) col = Some v ->
      getitem out col = Some v' -> v' ≠ v ->
      length v' = index_len (Fixture.recording 30) /\
      Forall (fun c => exists x, c = CNum x) v'.
Proof.
  apply (enhancer_writes_numbers_only Fixture.rng Fixture.gauss Fixture.coeffs
           Fixture.butter Fixture.filtfilt Fixture.np_std
           fixture_filtfilt_length 0 1.5%float 1%float 40%float
           (sample_world (Some true) [Fixture.recording 30])
           (Fixture.recording 30)).
  - reflexivity.
  - exact wf_recording_30.
Defined.

Lemma check_auth_returns_only_true_witness :
  true = true /\
  Some true = Some true /\
  sample_world (Some true) [] = sample_world (Some true) [].
Proof.
  apply (check_auth_returns_only_true Fixture.rng
           (mkWidgets "anything" true None 1.5 1 40 false)
           (sample_world (Some true) []) true (sample_world (Some true) [])).
  reflexivity.
Defined.

Lemma accepted_session_stays_open_witness :
  (check_auth Fixture.rng (mkWidgets "Demo2025" true None 1.5 1 40 false)
     (sample_world None [])).1 = Raise RerunException /\
  check_auth Fixture.rng (mkWidgets "" false None 1.5 1 40 false)
    (check_auth Fixture.rng (mkWidgets "Demo2025" true None 1.5 1 40 false)
       (sample_world None [])).2
  = (Ok true,
     (check_auth Fixture.rng (mkWidgets "Demo2025" true None 1.5 1 40 false)
        (sample_world None [])).2).
Proof.
  apply (accepted_session_stays_open Fixture.rng
           (mkWidgets "Demo2025" true None 1.5 1 40 false)
           (mkWidgets "" false None 1.5 1 40 false)
           (sample_world None [])).
  - simpl. discriminate.
  - reflexivity.
  - reflexivity.
Defined.

Lemma main_gate_witness :
  exists e w',
    run_main
      (mkWidgets "guess" true (Some (mkUploadedFile 100 "recording-30")) 1.5 1 40 true)
      (sample_world (Some false) []) = (Raise e, w') /\
    (e = StopException \/ e = RerunException) /\
    heap _ w' = [] /\ np_random _ w' = Fixture.tape /\
    clock _ w' = Fixture.at_noon /\
    (page _ w' = [] \/ page _ w' = [] ++ [st_error "Invalid access code"]).
Proof.
  apply (main_gate Fixture.rng Fixture.gauss Fixture.coeffs Fixture.butter
           Fixture.filtfilt Fixture.np_std Fixture.read_csv Fixture.to_csv
           (mkWidgets "guess" true (Some (mkUploadedFile 100 "recording-30")) 1.5 1 40 true)
           (sample_world (Some false) [])).
  simpl. discriminate.
Defined.

Lemma main_returns_witness :
  exists w',
    run_main
      (mkWidgets "" false (Some (mkUploadedFile 100 "stamped-30")) 1.5 1 40 true)
      (sample_world (Some true) []) = (Ok tt, w') /\
    authenticated _ w' = Some true.
Proof.
  apply (main_returns Fixture.rng Fixture.gauss Fixture.coeffs Fixture.butter
           Fixture.filtfilt Fixture.np_std Fixture.read_csv Fixture.to_csv
           (mkWidgets "" false (Some (mkUploadedFile 100 "stamped-30")) 1.5 1 40 true)
           (sample_world (Some true) [])).
  reflexivity.
Defined.

Lemma row_limit_invariant_witness :
  exists df' w' f',
    limit_rows Fixture.rng 0 (sample_world (Some true) [Fixture.recording 501])
      = (Ok df', w') /\
    heap _ w' !! df' = Some f' /\
    index_len f' = MAX_ROWS `min` index_len (Fixture.recording 501) /\
    index_len f' <= MAX_ROWS /\
    df_columns f' = df_columns (Fixture.recording 501) /\
    (wf_frame (Fixture.recording 501) -> wf_frame f') /\
    heap _ w' !! 0 = Some (Fixture.recording 501).
Proof.
  apply (row_limit_invariant Fixture.rng 0
           (sample_world (Some true) [Fixture.recording 501])
           (Fixture.recording 501)).
  reflexivity.
Defined.

Lemma row_limit_idempotent_witness :
  limit_rows Fixture.rng 1
    (mkWorld Fixture.rng (Some true) Fixture.tape Fixture.at_noon
       [st_warning "Demo limited to first 500 rows"]
       [Fixture.recording 501; head MAX_ROWS (Fixture.recording 501)])
  = (Ok 1,
     mkWorld Fixture.rng (Some true) Fixture.tape Fixture.at_noon
       [st_warning "Demo limited to first 500 rows"]
       [Fixture.recording 501; head MAX_ROWS (Fixture.recording 501)]).
Proof.
  apply (row_limit_idempotent Fixture.rng 0
           (sample_world (Some true) [Fixture.recording 501])
           (Fixture.recording 501)).
  - reflexivity.
  - vm_compute. reflexivity.
Defined.

Lemma watermark_keeps_frame_well_formed_witness :
  exists f',
    heap _ (add_watermark Fixture.rng 0
              (sample_world (Some true) [Fixture.recording 30])).2 !! 0 = Some f' /\
    wf_frame f' /\ index_len f' = index_len (Fixture.recording 30).
Proof.
  apply (watermark_keeps_frame_well_formed Fixture.rng 0
           (sample_world (Some true) [Fixture.recording 30])
           (Fixture.recording 30)
           (add_watermark Fixture.rng 0
              (sample_world (Some true) [Fixture.recording 30])).1).
  - reflexivity.
  - exact wf_recording_30.
  - by destruct (add_watermark Fixture.rng 0
                   (sample_world (Some true) [Fixture.recording 30])).
Defined.

Lemma watermark_twice_raises_witness :
  exists w2,
    add_watermark Fixture.rng 0
      (add_watermark Fixture.rng 0
         (sample_world (Some true) [Fixture.recording 30])).2 =
      (Raise (PyException "cannot insert DEMO_WATERMARK, already exists"), w2) /\
    heap _ w2
      = heap _ (add_watermark Fixture.rng 0
                  (sample_world (Some true) [Fixture.recording 30])).2 /\
    heap _ (add_watermark Fixture.rng 0
              (sample_world (Some true) [Fixture.recording 30])).2 !! 0
      = Some (stamped_with
                "QuantumSignal Demo | Not for Production | 2025-03-07 12:00:00"
                (Fixture.recording 30)).
Proof.
  apply (watermark_twice_raises Fixture.rng 0
           (sample_world (Some true) [Fixture.recording 30])
           (Fixture.recording 30)).
  - reflexivity.
  - vm_compute. reflexivity.
Defined.

Lemma main_pipeline_witness :
  exists out w',
    run_main
      (mkWidgets "" false (Some (mkUploadedFile 100 "recording-30")) 1.5 1 40 true)
      (sample_world (Some true) []) = (Ok tt, w') /\
    df_columns out = df_columns (Fixture.recording 30) /\
    index_len out = MAX_ROWS `min` index_len (Fixture.recording 30) /\
    (forall c, lower c = "time" ->
               getitem out c = getitem (limited (Fixture.recording 30)) c) /\
    page _ w' = [] ++
      (if MAX_ROWS <? index_len (Fixture.recording 30)
       then [st_warning "Demo limited to first 500 rows"] else []) ++
      ((fun c => st_error ("Demo processing error for " +:+ c)) <$>
         filter (fun c => fixture_fails 1 40
                            (column_of (limited (Fixture.recording 30)) c))
           (filter is_signal_col (df_columns (Fixture.recording 30)))) ++
      [st_success "Demo processing complete!";
       st_info ("**Watermark:** "
                  +:+ WATERMARK_TEXT (strftime_seconds (Fixture.at_noon 0)));
       st_dataframe (head 5 (limited (Fixture.recording 30)));
       st_dataframe
         (head 5 (stamped_with
                    (WATERMARK_TEXT (strftime_seconds (Fixture.at_noon 0))) out));
       st_download_button
         (Fixture.to_csv
            (stamped_with
               (WATERMARK_TEXT (strftime_seconds (Fixture.at_noon 0))) out))
         ("demo_signal_enhancement_"
            +:+ strftime_date (Fixture.at_noon 1) +:+ ".csv")
         "text/csv"].
Proof.
  apply (main_pipeline Fixture.rng Fixture.gauss Fixture.coeffs Fixture.butter
           Fixture.filtfilt Fixture.np_std Fixture.read_csv Fixture.to_csv
           fixture_filtfilt_length
           (mkWidgets "" false (Some (mkUploadedFile 100 "recording-30")) 1.5 1 40 true)
           (sample_world (Some true) [])
           (mkUploadedFile 100 "recording-30") (Fixture.recording 30)).
  - reflexivity.
  - reflexivity.
  - unfold MAX_FILE_SIZE. simpl. lia.
  - reflexivity.
  - exact wf_recording_30.
  - intros Hin. vm_compute in Hin.
    repeat (apply elem_of_cons in Hin as [Hin|Hin]; [discriminate Hin|]).
    by apply elem_of_nil in Hin.
  - reflexivity.
Defined.

Lemma main_refuses_stamped_upload_witness :
  exists w',
    run_main
      (mkWidgets "" false (Some (mkUploadedFile 100 "stamped-30")) 1.5 1 40 true)
      (sample_world (Some true) []) = (Ok tt, w') /\
    page _ w' = [] ++
      (if MAX_ROWS <? index_len (Fixture.stamped 30)
       then [st_warning "Demo limited to first 500 rows"] else []) ++
      ((fun c => st_error ("Demo processing error for " +:+ c)) <$>
         filter (fun c => fixture_fails 1 40
                            (column_of (limited (Fixture.stamped 30)) c))
           (filter is_signal_col (df_columns (Fixture.stamped 30)))) ++
      [st_error "Demo error: cannot insert DEMO_WATERMARK, already exists"].
Proof.
  apply (main_refuses_stamped_upload Fixture.rng Fixture.gauss Fixture.coeffs
           Fixture.butter Fixture.filtfilt Fixture.np_std
           Fixture.read_csv Fixture.to_csv fixture_filtfilt_length
           (mkWidgets "" false (Some (mkUploadedFile 100 "stamped-30")) 1.5 1 40 true)
           (sample_world (Some true) [])
           (mkUploadedFile 100 "stamped-30") (Fixture.stamped 30)).
  - reflexivity.
  - reflexivity.
  - unfold MAX_FILE_SIZE. simpl. lia.
  - reflexivity.
  - exact wf_stamped_30.
  - apply list_elem_of_here.
  - reflexivity.
Defined.
